(** * ChatConnect AI backend: route layer, schemas and application shell

    A shallow embedding of [src/api/routes.py], [src/api/main.py],
    [src/models/requests.py], [src/models/responses.py] and the one setting
    of [src/config/settings.py] that the routes read.

    Conventions of the embedding:
    - a Python [str] is a [string]; every [ascii] stands for one character,
      so [String.length] is [len] and [substring] is slicing;
    - a Python [dict] is an association list, looked up by key;
    - handlers are written in a state-and-exception monad [M] over a
      [World] that holds what the code reads from or writes to its
      environment: the random source behind [uuid.uuid4], the clock behind
      [time.time], the awaited pauses, and the structured log;
    - an async generator is a computation in [G], which also records the
      strings it yields, in order. *)

From Stdlib Require Import String Ascii List ZArith NArith Lia Bool Arith DecimalString.
Import ListNotations.
Local Open Scope string_scope.
Set Warnings "-register-all".

(* ===================================================================== *)
(** ** Python built-ins used by the sources *)
(* ===================================================================== *)

Module Py.

(** The line feed written [\n] in the sources. *)
Definition LF : string := String "010"%char EmptyString.

(** The double quote, as [json.dumps] writes it around strings. *)
Definition DQ : string := String "034"%char EmptyString.

(** [s[i:j]] for non-negative [i] and [j]: both ends are clamped to
    [len(s)], and the slice is empty when [j <= i]. *)
Definition slice (s : string) (i j : nat) : string := substring i (j - i) s.

(** [s.startswith(p)] *)
Definition startswith (s p : string) : bool := prefix p s.

(** [not s] for a [str]: true exactly for the empty string. *)
Definition is_falsy (s : string) : bool :=
  match s with
  | EmptyString => true
  | String _ _ => false
  end.

(** [range(start, stop, step)] for [step > 0], as the list of its values.
    The recursion is on a fuel that [range] sets to [stop - start], which
    is enough because every turn advances by at least one. *)
Fixpoint range_from (fuel start stop step : nat) : list nat :=
  match fuel with
  | O => []
  | S fuel' =>
      if Nat.ltb start stop
      then start :: range_from fuel' (start + step) stop step
      else []
  end.

Definition range (start stop step : nat) : list nat :=
  range_from (stop - start) start stop step.

(** [str(n)] for an [int]. *)
Definition str_int (z : Z) : string := NilZero.string_of_int (Z.to_int z).

(** [str(x)] for a value that is a [str] or [None], as an f-string
    formats it. *)
Definition str_opt (x : option string) : string :=
  match x with
  | Some s => s
  | None => "None"
  end.

(** [d[k]] and [d.get(k)] on a dict kept as an association list. *)
Fixpoint dict_get {V : Type} (d : list (string * V)) (k : string) : option V :=
  match d with
  | [] => None
  | (k', v) :: rest => if String.eqb k' k then Some v else dict_get rest k
  end.

(** ASCII lower-casing, as [str.lower] acts on header names. *)
Definition lower_char (c : ascii) : ascii :=
  let n := nat_of_ascii c in
  if Nat.leb 65 n && Nat.leb n 90 then ascii_of_nat (n + 32) else c.

Fixpoint lower (s : string) : string :=
  match s with
  | EmptyString => EmptyString
  | String c rest => String (lower_char c) (lower rest)
  end.

End Py.

(* ===================================================================== *)
(** ** JSON values *)
(* ===================================================================== *)

(** A decoded JSON document, as [json.loads] hands it to the framework.
    Numbers are kept as integers: every check below treats all numbers
    alike. An object is the decoded [dict]. *)
Inductive json : Type :=
| JNull
| JBool (b : bool)
| JNum (z : Z)
| JStr (s : string)
| JArr (items : list json)
| JObj (members : list (string * json)).

Module Json.

(** Lower-case hexadecimal digit of a value below 16. *)
Definition hex_digit (n : N) : ascii :=
  if (n <? 10)%N then ascii_of_N (48 + n) else ascii_of_N (87 + n).

(** [k] hexadecimal digits of [n], most significant first
    (the format [%0kx] on a value below [16^k]). *)
Fixpoint hex_fixed (k : nat) (n : N) : string :=
  match k with
  | O => EmptyString
  | S k' =>
      hex_fixed k' (N.shiftr n 4) ++ String (hex_digit (N.land n 15)) EmptyString
  end.

(** One character inside a JSON string literal, as [json.dumps] escapes it
    with [ensure_ascii=True]: backslash, quote and the short escapes are
    written with a backslash, printable ASCII is copied, everything else
    becomes [\u00xx]. *)
Definition escape_char (c : ascii) : string :=
  let n := N_of_ascii c in
  if (n =? 92)%N then "\\"
  else if (n =? 34)%N then "\" ++ Py.DQ
  else if (n =? 10)%N then "\n"
  else if (n =? 13)%N then "\r"
  else if (n =? 9)%N then "\t"
  else if (n =? 8)%N then "\b"
  else if (n =? 12)%N then "\f"
  else if ((32 <=? n) && (n <=? 126))%N then String c EmptyString
  else "\u" ++ hex_fixed 4 n.

Fixpoint escape (s : string) : string :=
  match s with
  | EmptyString => EmptyString
  | String c rest => escape_char c ++ escape rest
  end.

(** [json.dumps(s)] for a [str]. *)
Definition dumps_str (s : string) : string := Py.DQ ++ escape s ++ Py.DQ.

(** [json.dumps(d)] for a flat [dict] of strings: members in insertion
    order, separated by [", "], key and value by [": "]. *)
Fixpoint dumps_members (d : list (string * string)) : string :=
  match d with
  | [] => EmptyString
  | [(k, v)] => dumps_str k ++ ": " ++ dumps_str v
  | (k, v) :: rest => dumps_str k ++ ": " ++ dumps_str v ++ ", " ++ dumps_members rest
  end.

Definition dumps_dict (d : list (string * string)) : string :=
  "{" ++ dumps_members d ++ "}".

(** [json.dumps([])] *)
Definition dumps_empty_list : string := "[]".

End Json.

(* ===================================================================== *)
(** ** Exceptions, the environment and the two monads *)
(* ===================================================================== *)

(** The exceptions that cross the code, all subclasses of [Exception]:
    the two the framework turns into responses, and any other one, kept
    with its class name and its [str]. *)
Inductive exn : Type :=
| HTTPException (status_code : nat) (detail : string)
| RequestValidationError (errors : list (list string * string))
| PyException (type_name : string) (message : string).

(** [str(e)]. The routes format only exceptions caught inside their [try]
    blocks, where no validation error is raised; for that class the text
    keeps the kinds of the errors. *)
Definition exn_str (e : exn) : string :=
  match e with
  | HTTPException code detail => Py.str_int (Z.of_nat code) ++ ": " ++ detail
  | RequestValidationError errs => String.concat ", " (map snd errs)
  | PyException _ message => message
  end.

(** One structured log call: level, event name, keyword arguments. *)
Record LogRecord : Type := mkLog {
  log_level : string;
  log_event : string;
  log_fields : list (string * string)
}.

(** The environment of a handler. [entropy k] is the [k]-th 128-bit value
    the random source delivers. The clock delivers floats, which are not
    modelled: a reading is kept by its rank among the readings, and the
    environment says what the code computes from readings. [clock_ms k] is
    [int(t * 1000)] for the [k]-th reading [t]; [elapsed_ms i j] is
    [int((t' - t) * 1000)] for the [i]-th reading [t] and the [j]-th
    reading [t'], which need not be the difference of [clock_ms j] and
    [clock_ms i]. [sleep_fault k] and [log_fault name] say whether
    the [k]-th awaited pause, respectively a log call for the event
    [name], raises: they are the only calls into the environment that the
    [try] blocks of the routes enclose. [scope_state] is the [state]
    mapping of the request being served, which the middleware and the
    exception handler both reach through [request.state]. *)
Record World : Type := mkWorld {
  entropy : nat -> N;
  entropy_used : nat;
  clock_ms : nat -> Z;
  elapsed_ms : nat -> nat -> Z;
  clock_reads : nat;
  sleep_fault : nat -> option exn;
  sleeps : nat;
  log_fault : string -> option exn;
  logged : list LogRecord;
  scope_state : list (string * string)
}.

(** A world in which no call into the environment raises. *)
Definition quiet (w : World) : Prop :=
  (forall k, sleep_fault w k = None) /\ (forall name, log_fault w name = None).

(** State and exceptions. *)
Definition M (A : Type) : Type := World -> (exn + A) * World.

Definition ret {A} (a : A) : M A := fun w => (inr a, w).

Definition raise {A} (e : exn) : M A := fun w => (inl e, w).

Definition bind {A B} (m : M A) (k : A -> M B) : M B :=
  fun w =>
    match m w with
    | (inl e, w') => (inl e, w')
    | (inr a, w') => k a w'
    end.

(** [try: body  except Exception as e: handler(e)] *)
Definition try_except {A} (body : M A) (handler : exn -> M A) : M A :=
  fun w =>
    match body w with
    | (inl e, w') => handler e w'
    | (inr a, w') => (inr a, w')
    end.

Declare Scope m_scope.
Delimit Scope m_scope with M.
Notation "x <- m ;; k" := (bind m (fun x => k))
  (at level 61, m at next level, right associativity) : m_scope.
Notation "m ;; k" := (bind m (fun _ => k))
  (at level 61, right associativity) : m_scope.

(** [time.time()]: the next reading of the clock, kept by its rank. *)
Definition time : M nat :=
  fun w =>
    (inr (clock_reads w),
     mkWorld (entropy w) (entropy_used w) (clock_ms w) (elapsed_ms w) (S (clock_reads w))
             (sleep_fault w) (sleeps w) (log_fault w) (logged w) (scope_state w)).

(** [int(t * 1000)] for the reading of rank [t]. *)
Definition int_ms (t : nat) : M Z := fun w => (inr (clock_ms w t), w).

(** [int((time.time() - t) * 1000)] for the reading of rank [t]: the clock
    is read once more. *)
Definition elapsed_since (t : nat) : M Z :=
  fun w =>
    (inr (elapsed_ms w t (clock_reads w)),
     mkWorld (entropy w) (entropy_used w) (clock_ms w) (elapsed_ms w) (S (clock_reads w))
             (sleep_fault w) (sleeps w) (log_fault w) (logged w) (scope_state w)).

(** The next 128 random bits. *)
Definition urandom128 : M N :=
  fun w =>
    (inr (entropy w (entropy_used w)),
     mkWorld (entropy w) (S (entropy_used w)) (clock_ms w) (elapsed_ms w) (clock_reads w)
             (sleep_fault w) (sleeps w) (log_fault w) (logged w) (scope_state w)).

(** [await asyncio.sleep(_)] *)
Definition sleep : M unit :=
  fun w =>
    let w' := mkWorld (entropy w) (entropy_used w) (clock_ms w) (elapsed_ms w) (clock_reads w)
                      (sleep_fault w) (S (sleeps w)) (log_fault w) (logged w)
                      (scope_state w) in
    match sleep_fault w (sleeps w) with
    | Some e => (inl e, w')
    | None => (inr tt, w')
    end.

(** [logger.<level>(event, **fields)] *)
Definition logger (level event : string) (fields : list (string * string)) : M unit :=
  fun w =>
    match log_fault w event with
    | Some e => (inl e, w)
    | None =>
        (inr tt,
         mkWorld (entropy w) (entropy_used w) (clock_ms w) (elapsed_ms w) (clock_reads w)
                 (sleep_fault w) (sleeps w) (log_fault w)
                 (logged w ++ [mkLog level event fields])%list (scope_state w))
    end.

(** [request.state.<name> = value] *)
Definition state_set (name value : string) : M unit :=
  fun w =>
    (inr tt,
     mkWorld (entropy w) (entropy_used w) (clock_ms w) (elapsed_ms w) (clock_reads w)
             (sleep_fault w) (sleeps w) (log_fault w) (logged w)
             ((name, value) :: scope_state w)).

(** [getattr(request.state, name, default)] *)
Definition state_get (name default : string) : M string :=
  fun w =>
    (inr (match Py.dict_get (scope_state w) name with
          | Some v => v
          | None => default
          end), w).

Definition logger_info := logger "info".
Definition logger_error := logger "error".

(** What an async generator has done when it stops: the strings it
    yielded, in order, and how its body ended. *)
Record Run (A : Type) : Type := mkRun {
  yielded : list string;
  ended : exn + A;
  after : World
}.
Arguments mkRun {A} _ _ _.
Arguments yielded {A} _.
Arguments ended {A} _.
Arguments after {A} _.

Definition G (A : Type) : Type := World -> Run A.

Definition gret {A} (a : A) : G A := fun w => mkRun [] (inr a) w.

Definition gbind {A B} (g : G A) (k : A -> G B) : G B :=
  fun w =>
    let r := g w in
    match ended r with
    | inl e => mkRun (yielded r) (inl e) (after r)
    | inr a =>
        let r' := k a (after r) in
        mkRun (yielded r ++ yielded r')%list (ended r') (after r')
    end.

(** [yield s] *)
Definition gyield (s : string) : G unit := fun w => mkRun [s] (inr tt) w.

(** A call of the handler monad made inside a generator. *)
Definition glift {A} (m : M A) : G A :=
  fun w => let '(r, w') := m w in mkRun [] r w'.

(** [try: body  except Exception as e: handler(e)] inside a generator. *)
Definition gtry {A} (body : G A) (handler : exn -> G A) : G A :=
  fun w =>
    let r := body w in
    match ended r with
    | inl e =>
        let r' := handler e (after r) in
        mkRun (yielded r ++ yielded r')%list (ended r') (after r')
    | inr a => r
    end.

Declare Scope g_scope.
Delimit Scope g_scope with G.
Notation "x <- g ;; k" := (gbind g (fun x => k))
  (at level 61, g at next level, right associativity) : g_scope.
Notation "g ;; k" := (gbind g (fun _ => k))
  (at level 61, right associativity) : g_scope.

(* ===================================================================== *)
(** ** The HTTP layer the handlers are bound to *)
(* ===================================================================== *)

Module Http.

(** A header list as the server hands it over: names are lower-case. *)
Definition Headers : Type := list (string * string).

(** [headers.get(key)]: the lookup lower-cases [key]; the first header of
    that name wins. *)
Definition headers_get (hs : Headers) (key : string) : option string :=
  Py.dict_get hs (Py.lower key).

(** [headers.get(key, default)] *)
Definition headers_get_default (hs : Headers) (key default : string) : string :=
  match headers_get hs key with
  | Some v => v
  | None => default
  end.

Definition drop_name (name : string) (hs : Headers) : Headers :=
  filter (fun h => negb (String.eqb (fst h) name)) hs.

Fixpoint headers_put (hs : Headers) (name value : string) : Headers :=
  match hs with
  | [] => [(name, value)]
  | (n, v) :: rest =>
      if String.eqb n name
      then (name, value) :: drop_name name rest
      else (n, v) :: headers_put rest name value
  end.

(** [headers[key] = value]: the first header of that name is replaced and
    later ones are removed; without one, the header is appended. *)
Definition headers_set (hs : Headers) (key value : string) : Headers :=
  headers_put hs (Py.lower key) value.

(** [query_params.get(name)]: of several parameters of one name the last
    one counts. *)
Definition query_get (q : list (string * string)) (name : string) : option string :=
  Py.dict_get (rev q) name.

(** An inbound request. [query] holds the query parameters in the order of
    the URL; [body] is the decoded JSON body, [None] when the request has
    none. *)
Record Request : Type := mkRequest {
  method : string;
  path : string;
  headers : Headers;
  query : list (string * string);
  body : option json
}.

End Http.

(* ===================================================================== *)
(** ** [src/config/settings.py] *)
(* ===================================================================== *)

Module Config.

(** The settings object; of its fields the routes read only the internal
    shared secret. *)
Record Settings : Type := mkSettings {
  internal_api_secret : string
}.

(** The declared default, used when the environment sets nothing. *)
Definition default_settings : Settings := mkSettings "internal-secret".

End Config.

(* ===================================================================== *)
(** ** [src/models/requests.py] and [src/models/responses.py] *)
(* ===================================================================== *)

Module Models.

(** One validation error: where, and of which kind. *)
Definition ValidationErrors : Type := list (list string * string).

Record ChatRequest : Type := mkChatRequest {
  message : string;
  session_id : string;
  metadata : option (list (string * json))
}.

Record ProcessDocumentRequest : Type := mkProcessDocumentRequest {
  pd_document_id : string;
  pd_client_id : string;
  pd_file_data : string;
  pd_file_type : string;
  pd_original_name : string;
  pd_metadata : option (list (string * json))
}.

Definition char_between (lo hi c : ascii) : bool :=
  Nat.leb (nat_of_ascii lo) (nat_of_ascii c) && Nat.leb (nat_of_ascii c) (nat_of_ascii hi).

(** The character class [[a-f0-9-]]. *)
Definition session_char (c : ascii) : bool :=
  char_between "a" "f" c || char_between "0" "9" c || Ascii.eqb c "-".

Fixpoint all_chars (p : ascii -> bool) (s : string) : bool :=
  match s with
  | EmptyString => true
  | String c rest => p c && all_chars p rest
  end.

(** [pattern=r"^[a-f0-9-]{36}$"]: the anchors match at the two ends of the
    value only, so the whole value is 36 characters of the class. *)
Definition session_id_pattern (s : string) : bool :=
  Nat.eqb (String.length s) 36 && all_chars session_char s.

(** [pattern=r"^(pdf|docx|txt|csv)$"] *)
Definition file_type_pattern (s : string) : bool :=
  String.eqb s "pdf" || String.eqb s "docx" || String.eqb s "txt" || String.eqb s "csv".

(** A required [str] field with constraints: the key must be present, the
    value must be a string, and [check] names the first constraint it
    breaks, if any. *)
Definition str_field (obj : list (string * json)) (name : string)
    (check : string -> option string) : ValidationErrors + string :=
  match Py.dict_get obj name with
  | None => inl [(["body"; name], "missing")]
  | Some (JStr s) =>
      match check s with
      | Some kind => inl [(["body"; name], kind)]
      | None => inr s
      end
  | Some _ => inl [(["body"; name], "string_type")]
  end.

(** [dict[str, Any] | None = None] *)
Definition metadata_field (obj : list (string * json))
    : ValidationErrors + option (list (string * json)) :=
  match Py.dict_get obj "metadata" with
  | None => inr None
  | Some JNull => inr None
  | Some (JObj d) => inr (Some d)
  | Some _ => inl [(["body"; "metadata"], "dict_type")]
  end.

Definition errors_of {A} (r : ValidationErrors + A) : ValidationErrors :=
  match r with
  | inl errs => errs
  | inr _ => []
  end.

Definition no_constraint (_ : string) : option string := None.

(** [Field(..., min_length=1, max_length=2000)] *)
Definition message_constraint (s : string) : option string :=
  if Nat.ltb (String.length s) 1 then Some "string_too_short"
  else if Nat.ltb 2000 (String.length s) then Some "string_too_long"
  else None.

(** [Field(..., pattern=r"^[a-f0-9-]{36}$")] *)
Definition session_id_constraint (s : string) : option string :=
  if session_id_pattern s then None else Some "string_pattern_mismatch".

(** [Field(..., pattern=r"^(pdf|docx|txt|csv)$")] *)
Definition file_type_constraint (s : string) : option string :=
  if file_type_pattern s then None else Some "string_pattern_mismatch".

(** Deserialization of a request body into [ChatRequest]: every field is
    checked and all errors are reported together. *)
Definition validate_ChatRequest (b : option json) : ValidationErrors + ChatRequest :=
  match b with
  | None => inl [(["body"], "missing")]
  | Some (JObj obj) =>
      match str_field obj "message" message_constraint,
            str_field obj "session_id" session_id_constraint,
            metadata_field obj with
      | inr m, inr s, inr md => inr (mkChatRequest m s md)
      | rm, rs, rmd => inl (errors_of rm ++ errors_of rs ++ errors_of rmd)%list
      end
  | Some _ => inl [(["body"], "model_attributes_type")]
  end.

Definition validate_ProcessDocumentRequest (b : option json)
    : ValidationErrors + ProcessDocumentRequest :=
  match b with
  | None => inl [(["body"], "missing")]
  | Some (JObj obj) =>
      match str_field obj "document_id" no_constraint,
            str_field obj "client_id" no_constraint,
            str_field obj "file_data" no_constraint,
            str_field obj "file_type" file_type_constraint,
            str_field obj "original_name" no_constraint,
            metadata_field obj with
      | inr d, inr c, inr f, inr t, inr o, inr md =>
          inr (mkProcessDocumentRequest d c f t o md)
      | rd, rc, rf, rt, ro, rmd =>
          inl (errors_of rd ++ errors_of rc ++ errors_of rf ++ errors_of rt
               ++ errors_of ro ++ errors_of rmd)%list
      end
  | Some _ => inl [(["body"], "model_attributes_type")]
  end.

(** A citation. The score is a float in the source; no citation is ever
    built, so it is kept as an integer here. *)
Record ChatSource : Type := mkChatSource {
  cs_document_id : string;
  cs_title : string;
  cs_excerpt : string;
  cs_score : Z
}.

Record ChatResponse : Type := mkChatResponse {
  response : string;
  cr_session_id : string;
  sources : option (list ChatSource);
  trace_id : string
}.

Inductive DocumentStatus : Type :=
| pending | parsing | chunking | embedding | completed | failed.

Record DocumentStatusResponse : Type := mkDocumentStatusResponse {
  document_id : string;
  status : DocumentStatus;
  progress : Z;
  current_step : option string;
  chunks_total : option Z;
  chunks_processed : option Z;
  error_message : option string
}.

End Models.

(** What a handler hands back to the framework. A streaming body is the
    generator itself: it runs when the server sends the response. *)
Inductive Body : Type :=
| BJson (content : json)
| BChat (content : Models.ChatResponse)
| BStatus (content : Models.DocumentStatusResponse)
| BValidation (errors : Models.ValidationErrors)
| BStream (body_iterator : G unit).

Record Response : Type := mkResponse {
  status_code : nat;
  media_type : string;
  response_headers : Http.Headers;
  response_body : Body
}.

Definition JSONResponse (code : nat) (content : json) : Response :=
  mkResponse code "application/json" [] (BJson content).

(** The names of the headers given to a response are stored in lower
    case. *)
Definition StreamingResponse (g : G unit) (mt : string) (hs : Http.Headers) : Response :=
  mkResponse 200 mt (map (fun h => (Py.lower (fst h), snd h)) hs) (BStream g).

(** [response.headers[key] = value] *)
Definition with_header (r : Response) (key value : string) : Response :=
  mkResponse (status_code r) (media_type r)
             (Http.headers_set (response_headers r) key value) (response_body r).

(** [uuid.uuid4()] and [str] of it. *)
Module Uuid.

(** The 128-bit integer of a version-4 identifier built from 16 random
    bytes: the variant and version bits are forced, the rest is kept. *)
Definition uuid4_int (r : N) : N :=
  let i := N.land r (N.ones 128) in
  let i := N.ldiff i (N.shiftl 49152 48) in
  let i := N.lor i (N.shiftl 32768 48) in
  let i := N.ldiff i (N.shiftl 61440 64) in
  N.lor i (N.shiftl 4 76).

(** [str(u)]: 32 hexadecimal digits grouped 8-4-4-4-12. *)
Definition str (i : N) : string :=
  let hex := Json.hex_fixed 32 i in
  Py.slice hex 0 8 ++ "-" ++ Py.slice hex 8 12 ++ "-" ++ Py.slice hex 12 16
  ++ "-" ++ Py.slice hex 16 20 ++ "-" ++ Py.slice hex 20 32.

(** [str(uuid.uuid4())] *)
Definition uuid4_str : M string :=
  bind urandom128 (fun r => ret (str (uuid4_int r))).

End Uuid.

(* ===================================================================== *)
(** ** [src/api/routes.py] *)
(* ===================================================================== *)

Module Routes.

Import Models.
Local Open Scope m_scope.

(** The tenant configuration: a [dict] whose values are strings or
    [None]. *)
Definition ClientConfig : Type := list (string * option string).

(** [d[key]], raising [KeyError] when the key is absent. *)
Definition getitem (d : ClientConfig) (key : string) : M (option string) :=
  match Py.dict_get d key with
  | Some v => ret v
  | None => raise (PyException "KeyError" ("'" ++ key ++ "'"))
  end.

(** *** Dependencies *)

Definition validate_api_key (x_api_key : string) : M ClientConfig :=
  if Py.is_falsy x_api_key || negb (Py.startswith x_api_key "pk_")
  then raise (HTTPException 401 "Invalid API key")
  else ret [ ("client_id", Some "mock_client_123");
             ("tier", Some "free");
             ("model", Some "gpt-4o-mini");
             ("system_prompt", None) ].

(** [x != y] between a header value that may be [None] and a string. *)
Definition differs (x : option string) (y : string) : bool :=
  match x with
  | Some v => negb (String.eqb v y)
  | None => true
  end.

Definition validate_internal_secret (settings : Config.Settings)
    (x_internal_secret : option string) : M bool :=
  if differs x_internal_secret (Config.internal_api_secret settings)
  then raise (HTTPException 401 "Invalid internal secret")
  else ret true.

(** *** Chat endpoints *)

Definition chat (request : ChatRequest) (client_config : ClientConfig)
    : M ChatResponse :=
  trace_id <- Uuid.uuid4_str ;;
  start_time <- time ;;
  client_id <- getitem client_config "client_id" ;;
  logger_info "chat_request_received"
    [ ("trace_id", trace_id);
      ("client_id", Py.str_opt client_id);
      ("message_length", Py.str_int (Z.of_nat (String.length (message request)))) ] ;;
  try_except
    ( sleep ;;
      tier <- getitem client_config "tier" ;;
      model <- getitem client_config "model" ;;
      let response_text :=
        ("This is a mock response. Your message was: '"
         ++ Py.slice (message request) 0 50 ++ "...'" ++ Py.LF ++ Py.LF
         ++ "Client tier: " ++ Py.str_opt tier ++ Py.LF
         ++ "Model: " ++ Py.str_opt model ++ Py.LF ++ Py.LF
         ++ "The actual implementation will:" ++ Py.LF
         ++ "1. Search your knowledge base for relevant context" ++ Py.LF
         ++ "2. Generate a response using the appropriate LLM" ++ Py.LF
         ++ "3. Return sources for the information provided")%string in
      latency_ms <- elapsed_since start_time ;;
      logger_info "chat_request_completed"
        [ ("trace_id", trace_id); ("latency_ms", Py.str_int latency_ms) ] ;;
      ret (mkChatResponse response_text (session_id request) (Some []) trace_id) )
    (fun e =>
       logger_error "chat_request_failed"
         [ ("trace_id", trace_id); ("error", exn_str e) ] ;;
       raise (HTTPException 500 "Failed to process chat request")).

(** [for x in xs: body(x)] inside a generator. *)
Fixpoint gfor {A} (xs : list A) (body : A -> G unit) : G unit :=
  match xs with
  | [] => gret tt
  | x :: rest => gbind (body x) (fun _ => gfor rest body)
  end.

(** The text the streaming handler sends. *)
Definition mock_response (request : ChatRequest) : string :=
  ("This is a mock streaming response. "
   ++ "Your message was: '" ++ Py.slice (message request) 0 30 ++ "...'" ++ Py.LF ++ Py.LF
   ++ "The actual implementation will stream tokens from the LLM in real-time.")%string.

Definition chunk_size : nat := 10.

(** The body of the [try] block of the inner generator of [chat_stream];
    [trace_id] and [request] are the variables the generator closes
    over. What is thrown into the generator when the client goes away is
    no [Exception] and is not modelled. *)
Definition stream_try (trace_id : string) (request : ChatRequest) : G unit :=
  ( gyield ("event: start" ++ Py.LF ++ "data: " ++ trace_id ++ Py.LF ++ Py.LF)%string ;;
    gfor (Py.range 0 (String.length (mock_response request)) chunk_size)
      (fun i =>
         let chunk := Py.slice (mock_response request) i (i + chunk_size) in
         gyield ("event: chunk" ++ Py.LF ++ "data: " ++ chunk ++ Py.LF ++ Py.LF)%string ;;
         glift sleep) ;;
    gyield ("event: sources" ++ Py.LF ++ "data: " ++ Json.dumps_empty_list
            ++ Py.LF ++ Py.LF)%string ;;
    gyield ("event: done" ++ Py.LF ++ "data: [DONE]" ++ Py.LF ++ Py.LF)%string ;;
    glift (logger_info "chat_stream_completed" [ ("trace_id", trace_id) ]) )%G.

(** Its [except Exception as e] clause. *)
Definition stream_except (trace_id : string) (e : exn) : G unit :=
  ( glift (logger_error "chat_stream_error"
             [ ("trace_id", trace_id); ("error", exn_str e) ]) ;;
    gyield ("event: error" ++ Py.LF ++ "data: "
            ++ Json.dumps_dict [ ("code", "STREAM_ERROR"); ("message", exn_str e) ]
            ++ Py.LF ++ Py.LF)%string )%G.

Definition generate_stream (trace_id : string) (request : ChatRequest) : G unit :=
  gtry (stream_try trace_id request) (stream_except trace_id).

Definition chat_stream (request : ChatRequest) (client_config : ClientConfig)
    : M Response :=
  trace_id <- Uuid.uuid4_str ;;
  client_id <- getitem client_config "client_id" ;;
  logger_info "chat_stream_request_received"
    [ ("trace_id", trace_id); ("client_id", Py.str_opt client_id) ] ;;
  ret (StreamingResponse (generate_stream trace_id request) "text/event-stream"
         [ ("Cache-Control", "no-cache");
           ("Connection", "keep-alive");
           ("X-Accel-Buffering", "no") ]).

(** *** Document processing endpoints *)

Definition process_document (request : ProcessDocumentRequest) (_ : bool) : M json :=
  trace_id <- Uuid.uuid4_str ;;
  logger_info "document_process_request"
    [ ("trace_id", trace_id);
      ("document_id", pd_document_id request);
      ("client_id", pd_client_id request);
      ("file_type", pd_file_type request) ] ;;
  ret (JObj [ ("success", JBool true);
              ("document_id", JStr (pd_document_id request));
              ("trace_id", JStr trace_id);
              ("status", JStr "processing");
              ("message", JStr "Document processing started") ]).

Definition get_document_status (document_id : string) (_ : bool)
    : M DocumentStatusResponse :=
  ret (mkDocumentStatusResponse document_id completed 100 None
         (Some 10%Z) (Some 10%Z) None).

(** *** Internal endpoints *)

Definition validate_client (api_key : string) (_ : bool) : M json :=
  if Py.is_falsy api_key || negb (Py.startswith api_key "pk_")
  then ret (JObj [ ("valid", JBool false);
                   ("error_message", JStr "Invalid API key format") ])
  else ret (JObj [ ("valid", JBool true);
                   ("client_id", JStr "mock_client_123");
                   ("tier", JStr "free");
                   ("model", JStr "gpt-4o-mini");
                   ("allowed_domains", JArr [ JStr "*" ]) ]).

(** *** How the framework binds the handlers

    Each route resolves its dependency first, with the header the
    dependency declares: a parameter declared [Header(...)] is required, and
    a request without it is a validation error recorded without calling
    the dependency; one declared [Header(None)] is passed as [None] when
    absent. An exception raised by a dependency leaves at once. Then the
    route's own parameters and the body are validated; with any validation
    error recorded the handler is not called and the errors are raised
    together. *)

Definition raise_validation {A} (errs : ValidationErrors) : M A :=
  raise (RequestValidationError errs).

(** [Depends(validate_api_key)] *)
Definition depends_api_key (req : Http.Request) : M (ValidationErrors + ClientConfig) :=
  match Http.headers_get (Http.headers req) "x-api-key" with
  | None => ret (inl [(["header"; "x-api-key"], "missing")])
  | Some v => cfg <- validate_api_key v ;; ret (inr cfg)
  end.

(** [Depends(validate_internal_secret)] *)
Definition depends_internal_secret (settings : Config.Settings) (req : Http.Request)
    : M bool :=
  validate_internal_secret settings
    (Http.headers_get (Http.headers req) "X-Internal-Secret").

(** A required [str] query parameter. *)
Definition query_param (req : Http.Request) (name : string) : ValidationErrors + string :=
  match Http.query_get (Http.query req) name with
  | None => inl [(["query"; name], "missing")]
  | Some v => inr v
  end.

(** [POST /api/widget/chat] *)
Definition route_chat (req : Http.Request) : M Response :=
  dep <- depends_api_key req ;;
  match dep, validate_ChatRequest (Http.body req) with
  | inr client_config, inr request =>
      r <- chat request client_config ;;
      ret (mkResponse 200 "application/json" [] (BChat r))
  | d, b => raise_validation (errors_of d ++ errors_of b)%list
  end.

(** [POST /api/widget/chat/stream] *)
Definition route_chat_stream (req : Http.Request) : M Response :=
  dep <- depends_api_key req ;;
  match dep, validate_ChatRequest (Http.body req) with
  | inr client_config, inr request => chat_stream request client_config
  | d, b => raise_validation (errors_of d ++ errors_of b)%list
  end.

(** [POST /api/widget/process-document] *)
Definition route_process_document (settings : Config.Settings) (req : Http.Request)
    : M Response :=
  ok <- depends_internal_secret settings req ;;
  match validate_ProcessDocumentRequest (Http.body req) with
  | inr request =>
      r <- process_document request ok ;;
      ret (JSONResponse 200 r)
  | inl errs => raise_validation errs
  end.

(** [GET /api/widget/documents/{document_id}/status], with the path
    parameter already cut out of the path. *)
Definition route_get_document_status (settings : Config.Settings)
    (document_id : string) (req : Http.Request) : M Response :=
  ok <- depends_internal_secret settings req ;;
  r <- get_document_status document_id ok ;;
  ret (mkResponse 200 "application/json" [] (BStatus r)).

(** [POST /api/widget/internal/validate-client] *)
Definition route_validate_client (settings : Config.Settings) (req : Http.Request)
    : M Response :=
  ok <- depends_internal_secret settings req ;;
  match query_param req "api_key" with
  | inr api_key =>
      r <- validate_client api_key ok ;;
      ret (JSONResponse 200 r)
  | inl errs => raise_validation errs
  end.

(** The framework's handlers for the two exceptions it answers itself:
    an [HTTPException] becomes a response with its status and detail, a
    validation error a 422 response; any other exception goes on. *)
Definition exception_middleware (route : Http.Request -> M Response)
    : Http.Request -> M Response :=
  fun req w =>
    match route req w with
    | (inl (HTTPException code detail), w') =>
        (inr (JSONResponse code (JObj [ ("detail", JStr detail) ])), w')
    | (inl (RequestValidationError errs), w') =>
        (inr (mkResponse 422 "application/json" [] (BValidation errs)), w')
    | other => other
    end.

End Routes.

(* ===================================================================== *)
(** ** [src/api/main.py] *)
(* ===================================================================== *)

Module Main.

Local Open Scope m_scope.

(** [type(exc).__name__] *)
Definition exn_type_name (e : exn) : string :=
  match e with
  | HTTPException _ _ => "HTTPException"
  | RequestValidationError _ => "RequestValidationError"
  | PyException type_name _ => type_name
  end.

(** The request logging middleware. [call_next] is the rest of the
    application: the inner middleware and the routes, which answer
    [HTTPException] and validation errors themselves. *)
Definition log_requests (request : Http.Request)
    (call_next : Http.Request -> M Response) : M Response :=
  start_time <- time ;;
  start_ms <- int_ms start_time ;;
  let request_id :=
    Http.headers_get_default (Http.headers request) "X-Request-ID"
      ("req_" ++ Py.str_int start_ms) in
  state_set "request_id" request_id ;;
  response <- call_next request ;;
  duration_ms <- elapsed_since start_time ;;
  logger_info "http_request"
    [ ("request_id", request_id);
      ("method", Http.method request);
      ("path", Http.path request);
      ("status_code", Py.str_int (Z.of_nat (status_code response)));
      ("duration_ms", Py.str_int duration_ms) ] ;;
  ret (with_header response "X-Request-ID" request_id).

(** The handler registered for [Exception]. *)
Definition global_exception_handler (request : Http.Request) (exc : exn) : M Response :=
  request_id <- state_get "request_id" "unknown" ;;
  logger_error "unhandled_exception"
    [ ("request_id", request_id);
      ("error", exn_str exc);
      ("error_type", exn_type_name exc) ] ;;
  ret (JSONResponse 500
         (JObj [ ("error", JObj [ ("code", JStr "INTERNAL_ERROR");
                                  ("message", JStr "An unexpected error occurred") ]);
                 ("request_id", JStr request_id) ])).

(** The application around one route. The handler registered for
    [Exception] is run by the outermost layer of the stack, outside the
    middleware added with [@app.middleware]: it answers what
    [log_requests] lets through. The CORS middleware, which stands between
    [log_requests] and the routes and adds headers of its own, is left
    out. *)
Definition app (route : Http.Request -> M Response) (request : Http.Request)
    : M Response :=
  fun w =>
    match log_requests request (Routes.exception_middleware route) w with
    | (inl exc, w') => global_exception_handler request exc w'
    | (inr response, w') => (inr response, w')
    end.

(** Sending a response: a streaming body is run to its end. *)
Definition send_body (r : Response) : G unit :=
  match response_body r with
  | BStream g => g
  | _ => gret tt
  end.

End Main.


(* ===================================================================== *)
(** ** Vocabulary of the statements *)
(* ===================================================================== *)

(** The event stream of [POST /api/widget/chat/stream], as a client reads
    it. *)
Module Sse.

(** One event in the text framing: an [event:] line with the event type,
    a [data:] line with the payload, and a blank line. *)
Definition frame (event payload : string) : string :=
  ("event: " ++ event ++ Py.LF ++ "data: " ++ payload ++ Py.LF ++ Py.LF)%string.

(** The payloads of the [chunk] events: the values the loop variable
    [chunk] of the generator takes, in the order of the loop. *)
Definition chunks (request : Models.ChatRequest) : list string :=
  map (fun i => Py.slice (Routes.mock_response request) i (i + Routes.chunk_size))
      (Py.range 0 (String.length (Routes.mock_response request)) Routes.chunk_size).

(** The events of a stream that meets no exception. *)
Definition success_frames (trace_id : string) (request : Models.ChatRequest)
    : list string :=
  (frame "start" trace_id :: map (frame "chunk") (chunks request)
   ++ [ frame "sources" "[]"; frame "done" "[DONE]" ])%list.

(** The [error] event for an exception [e]. *)
Definition error_frame (e : exn) : string :=
  frame "error" (Json.dumps_dict [ ("code", "STREAM_ERROR"); ("message", exn_str e) ]).

(** The concatenation of a list of strings, in order. *)
Definition join (parts : list string) : string :=
  fold_right String.append EmptyString parts.

(** How many of the yielded events are terminal ones. *)
Definition is_terminal (text : string) : bool :=
  Py.startswith text ("event: done" ++ Py.LF) || Py.startswith text ("event: error" ++ Py.LF).

Definition count_terminal (frames : list string) : nat :=
  length (filter is_terminal frames).

End Sse.

(** The constraints of the chat request body, in the words of the
    specification. *)
Module Wording.

(** A lowercase hexadecimal digit or a hyphen. *)
Definition hex_or_hyphen (c : ascii) : bool :=
  existsb (Ascii.eqb c) (list_ascii_of_string "0123456789abcdef-").

(** The 36-character lowercase-hex-and-hyphen pattern. *)
Definition session_id_ok (s : string) : bool :=
  Nat.eqb (String.length s) 36 && forallb hex_or_hyphen (list_ascii_of_string s).

(** A message of 1 to 2000 characters. *)
Definition message_ok (s : string) : bool :=
  Nat.leb 1 (String.length s) && Nat.leb (String.length s) 2000.

(** Optional free-form metadata mapping. *)
Definition metadata_ok (v : option json) : bool :=
  match v with
  | None | Some JNull | Some (JObj _) => true
  | Some _ => false
  end.

(** A body that satisfies all constraints of a chat request. *)
Definition chat_body_ok (b : option json) : bool :=
  match b with
  | Some (JObj obj) =>
      match Py.dict_get obj "message", Py.dict_get obj "session_id" with
      | Some (JStr m), Some (JStr s) =>
          message_ok m && session_id_ok s && metadata_ok (Py.dict_get obj "metadata")
      | _, _ => false
      end
  | _ => false
  end.

End Wording.

(** The request logging middleware, seen from outside. *)
Module Middleware.

(** The identifier [log_requests] binds to [request_id] when it starts in
    the environment [w]: the inbound header if there is one, else [req_]
    followed by the clock reading in milliseconds. *)
Definition request_id_of (request : Http.Request) (w : World) : string :=
  Http.headers_get_default (Http.headers request) "X-Request-ID"
    ("req_" ++ Py.str_int (clock_ms w (clock_reads w))).

(** The environment in which [log_requests] calls the rest of the
    application: the clock has been read once and the identifier is
    stored in the request state. *)
Definition world_at_call_next (request : Http.Request) (w : World) : World :=
  mkWorld (entropy w) (entropy_used w) (clock_ms w) (elapsed_ms w) (S (clock_reads w))
          (sleep_fault w) (sleeps w) (log_fault w) (logged w)
          (("request_id", request_id_of request w) :: scope_state w).

End Middleware.

(** Concrete requests and environments. *)
Module Sample.

(** What the environments below give for two readings of ranks [i] and
    [j]: the readings are 0.9 ms apart, the first one at 1.7009 s, so
    that [int(t * 1000)] is [1700 + k] for the reading of rank [k]. *)
Definition elapsed (i j : nat) : Z :=
  if Nat.ltb i j then (Z.of_nat (j - i) - 1)%Z else 0%Z.

(** An environment in which nothing raises. *)
Definition quiet_world : World :=
  mkWorld (fun k => N.of_nat k) 0 (fun k => (1700 + Z.of_nat k)%Z) elapsed 0
          (fun _ => None) 0 (fun _ => None) [] [].

(** An environment in which the log call that follows the [done] event
    raises, and nothing else does. *)
Definition completed_log_fails : World :=
  mkWorld (fun k => N.of_nat k) 0 (fun k => (1700 + Z.of_nat k)%Z) elapsed 0
          (fun _ => None) 0
          (fun name =>
             if String.eqb name "chat_stream_completed"
             then Some (PyException "OSError" "log sink closed")
             else None)
          [] [].

(** An environment in which the second awaited pause raises. *)
Definition second_pause_fails : World :=
  mkWorld (fun k => N.of_nat k) 0 (fun k => (1700 + Z.of_nat k)%Z) elapsed 0
          (fun k => if Nat.eqb k 1 then Some (PyException "RuntimeError" "boom") else None)
          0 (fun _ => None) [] [].

Definition the_session : string := "123e4567-e89b-12d3-a456-426614174000".

Definition chat_body : json :=
  JObj [ ("message", JStr "hello"); ("session_id", JStr the_session) ].

Definition chat_request : Models.ChatRequest :=
  Models.mkChatRequest "hello" the_session None.

Definition post_chat (hs : Http.Headers) : Http.Request :=
  Http.mkRequest "POST" "/api/widget/chat" hs [] (Some chat_body).

Definition post_chat_stream (hs : Http.Headers) : Http.Request :=
  Http.mkRequest "POST" "/api/widget/chat/stream" hs [] (Some chat_body).

Definition get_status (hs : Http.Headers) : Http.Request :=
  Http.mkRequest "GET" "/api/widget/documents/doc-1/status" hs [] None.

Definition post_validate_client (hs : Http.Headers) (q : list (string * string))
    : Http.Request :=
  Http.mkRequest "POST" "/api/widget/internal/validate-client" hs q None.

(** An environment in which the first log call of the document route
    raises. *)
Definition document_log_fails : World :=
  mkWorld (fun k => N.of_nat k) 0 (fun k => (1700 + Z.of_nat k)%Z) elapsed 0
          (fun _ => None) 0
          (fun name =>
             if String.eqb name "document_process_request"
             then Some (PyException "OSError" "log sink closed")
             else None)
          [] [].

Definition document_body : json :=
  JObj [ ("document_id", JStr "doc-1"); ("client_id", JStr "client-1");
         ("file_data", JStr "aGVsbG8="); ("file_type", JStr "txt");
         ("original_name", JStr "hello.txt") ].

Definition post_document (hs : Http.Headers) : Http.Request :=
  Http.mkRequest "POST" "/api/widget/process-document" hs [] (Some document_body).

(** The trace identifier drawn first in [quiet_world]. *)
Definition first_trace_id : string := Uuid.str (Uuid.uuid4_int 0).

End Sample.

(** Shapes of texts. *)
Module Text.

Definition is_line_feed (c : ascii) : bool := Ascii.eqb c "010"%char.

(** The text holds a line feed somewhere. *)
Fixpoint has_line_feed (s : string) : bool :=
  match s with
  | EmptyString => false
  | String c rest => is_line_feed c || has_line_feed rest
  end.

(** A printable ASCII character, from the space to the tilde. *)
Definition printable (c : ascii) : bool := Models.char_between " " "~" c.

End Text.

(** The constraints of the document request body, field by field. *)
Module DocumentWording.

(** The member [name] of [obj] is a string that satisfies [ok]. *)
Definition string_member (obj : list (string * json)) (name : string)
    (ok : string -> bool) : bool :=
  match Py.dict_get obj name with
  | Some (JStr s) => ok s
  | _ => false
  end.

Definition any_string (_ : string) : bool := true.

(** One of the four file types. *)
Definition known_file_type (s : string) : bool :=
  existsb (String.eqb s) [ "pdf"; "docx"; "txt"; "csv" ].

(** A body that satisfies all constraints of a document request. *)
Definition document_body_ok (b : option json) : bool :=
  match b with
  | Some (JObj obj) =>
      string_member obj "document_id" any_string
      && string_member obj "client_id" any_string
      && string_member obj "file_data" any_string
      && string_member obj "file_type" known_file_type
      && string_member obj "original_name" any_string
      && Wording.metadata_ok (Py.dict_get obj "metadata")
  | _ => false
  end.

End DocumentWording.

(** More concrete environments and values. *)
Module MoreSamples.

(** An environment in which the first awaited pause raises. *)
Definition first_pause_fails : World :=
  mkWorld (fun k => N.of_nat k) 0 (fun k => (1700 + Z.of_nat k)%Z) Sample.elapsed 0
          (fun k => if Nat.eqb k 0 then Some (PyException "RuntimeError" "boom") else None)
          0 (fun _ => None) [] [].

(** An environment in which the second awaited pause raises and the log
    call of the [except] clause of the stream raises as well. *)
Definition pause_and_error_log_fail : World :=
  mkWorld (fun k => N.of_nat k) 0 (fun k => (1700 + Z.of_nat k)%Z) Sample.elapsed 0
          (fun k => if Nat.eqb k 1 then Some (PyException "RuntimeError" "boom") else None)
          0
          (fun name =>
             if String.eqb name "chat_stream_error"
             then Some (PyException "OSError" "log sink closed")
             else None)
          [] [].

(** A configuration without the [tier] entry. *)
Definition config_without_tier : Routes.ClientConfig :=
  [ ("client_id", Some "client-1"); ("model", Some "gpt-4o-mini") ].

(** A response that already carries two request-identifier headers. *)
Definition response_with_ids : Response :=
  mkResponse 200 "application/json"
    [ ("x-request-id", "inner-1"); ("content-length", "2"); ("x-request-id", "inner-2") ]
    (BJson (JObj [])).

End MoreSamples.

(** The stream as a client reads it. In the framing of the stream an
    event is an [event:] line that names its type, a [data:] line that
    carries its payload, and a blank line. *)
Module SseReader.

(** The text up to the first line feed. *)
Fixpoint first_line (s : string) : string :=
  match s with
  | EmptyString => EmptyString
  | String c rest =>
      if Text.is_line_feed c then EmptyString else String c (first_line rest)
  end.

(** The text behind the first line feed. *)
Fixpoint after_first_line (s : string) : string :=
  match s with
  | EmptyString => EmptyString
  | String c rest => if Text.is_line_feed c then rest else after_first_line rest
  end.

(** The payload an event carries: what its second line holds behind
    [data: ]. *)
Definition carried_payload (text : string) : string :=
  let line := first_line (after_first_line text) in
  if prefix "data: " line
  then substring 6 (String.length line - 6) line
  else EmptyString.

Definition is_chunk_event (text : string) : bool :=
  Py.startswith text ("event: chunk" ++ Py.LF).

(** The payloads the [chunk] events of a stream carry, joined in the
    order of the stream. *)
Definition carried_chunk_text (frames : list string) : string :=
  Sse.join (map carried_payload (filter is_chunk_event frames)).

End SseReader.

(* ===================================================================== *)
(** * Properties *)
(* ===================================================================== *)

(** ** Slices and ranges *)

Module StrFacts.

Lemma length_append (a b : string) :
  String.length (a ++ b) = String.length a + String.length b.
Proof.
  induction a as [|c a IH]; simpl; [reflexivity | now rewrite IH].
Qed.

Lemma substring_zero (s : string) (i : nat) : substring i 0 s = EmptyString.
Proof.
  revert i; induction s as [|c s IH]; intros [|i]; simpl; auto.
Qed.

(** Two adjacent slices make one. *)
Lemma substring_adjacent (s : string) (i m k : nat) :
  (substring i m s ++ substring (i + m) k s)%string = substring i (m + k) s.
Proof.
  revert i m k; induction s as [|c s IH]; intros i m k.
  - destruct i, m, k; reflexivity.
  - destruct i as [|i].
    + destruct m as [|m]; simpl.
      * reflexivity.
      * f_equal. apply (IH 0 m k).
    + simpl. apply IH.
Qed.

(** A slice that runs past the end stops at the end. *)
Lemma substring_clamp (s : string) (i m : nat) :
  String.length s <= i + m -> substring i m s = substring i (String.length s - i) s.
Proof.
  revert i m; induction s as [|c s IH]; intros i m H.
  - destruct i, m; reflexivity.
  - destruct i as [|i]; simpl in *.
    + destruct m as [|m]; [lia|].
      f_equal. rewrite (IH 0 m) by lia. now rewrite Nat.sub_0_r.
    + apply IH; lia.
Qed.

Lemma substring_all (s : string) : substring 0 (String.length s) s = s.
Proof.
  induction s as [|c s IH]; simpl; [reflexivity | now rewrite IH].
Qed.

Lemma substring_length (s : string) (i m : nat) :
  String.length (substring i m s) = Nat.min m (String.length s - i).
Proof.
  revert i m; induction s as [|c s IH]; intros i m.
  - destruct i, m; reflexivity.
  - destruct i as [|i]; simpl.
    + destruct m as [|m]; simpl; [reflexivity|].
      rewrite (IH 0 m), Nat.sub_0_r. reflexivity.
    + apply IH.
Qed.

Lemma append_cancel_r (a b t : string) : (a ++ t)%string = (b ++ t)%string -> a = b.
Proof.
  revert b; induction a as [|x a IH]; intros [|y b] H; simpl in *.
  - reflexivity.
  - apply (f_equal String.length) in H. simpl in H. rewrite length_append in H. lia.
  - apply (f_equal String.length) in H. simpl in H. rewrite length_append in H. lia.
  - injection H as -> H. f_equal. now apply IH.
Qed.

(** The values of [range_from] are [start], [start + step], ... *)
Lemma range_from_nth (fuel start stop step k : nat) :
  k < length (Py.range_from fuel start stop step) ->
  nth k (Py.range_from fuel start stop step) 0 = start + k * step.
Proof.
  revert start k; induction fuel as [|fuel IH]; intros start k; simpl.
  - lia.
  - destruct (Nat.ltb start stop); simpl; [|lia].
    destruct k as [|k]; intro H.
    + lia.
    + rewrite IH by lia. lia.
Qed.

(** Slicing a text at the values of a range with a positive step, each
    slice as long as the step, and joining the slices gives the text from
    the start of the range on. *)
Lemma join_slices_from (text : string) (size fuel start : nat) :
  0 < size ->
  String.length text - start <= fuel ->
  Sse.join (map (fun i => Py.slice text i (i + size))
            (Py.range_from fuel start (String.length text) size))
  = substring start (String.length text - start) text.
Proof.
  intros Hsize. revert start; induction fuel as [|fuel IH]; intros start Hfuel; simpl.
  - replace (String.length text - start) with 0 by lia.
    now rewrite substring_zero.
  - destruct (Nat.ltb_spec start (String.length text)) as [Hlt|Hge]; simpl.
    + rewrite IH by lia. unfold Py.slice.
      replace (start + size - start) with size by lia.
      rewrite substring_adjacent.
      apply substring_clamp. lia.
    + replace (String.length text - start) with 0 by lia.
      now rewrite substring_zero.
Qed.

End StrFacts.

(** ** Runs of generators *)

Module GenFacts.

(** A sequence that ends normally: both parts did, and the second part
    started where the first stopped. *)
Lemma gbind_ok {A B} (g : G A) (k : A -> G B) (w : World) (b : B) :
  ended (gbind g k w) = inr b ->
  exists a,
    ended (g w) = inr a /\
    ended (k a (after (g w))) = inr b /\
    yielded (gbind g k w) = (yielded (g w) ++ yielded (k a (after (g w))))%list /\
    after (gbind g k w) = after (k a (after (g w))).
Proof.
  unfold gbind. destruct (ended (g w)) as [e|a] eqn:E; simpl; intro H.
  - discriminate.
  - exists a. repeat split; auto.
Qed.

(** A sequence whose first part raises stops there. *)
Lemma gbind_raise {A B} (g : G A) (k : A -> G B) (w : World) (e : exn) :
  ended (g w) = inl e ->
  gbind g k w = mkRun (yielded (g w)) (inl e) (after (g w)).
Proof.
  unfold gbind. intros ->. reflexivity.
Qed.

(** A sequence whose first part returns goes on with the second. *)
Lemma gbind_step {A B} (g : G A) (k : A -> G B) (w : World) (a : A) :
  ended (g w) = inr a ->
  gbind g k w =
  mkRun (yielded (g w) ++ yielded (k a (after (g w))))%list
        (ended (k a (after (g w)))) (after (k a (after (g w)))).
Proof.
  unfold gbind. intros ->. reflexivity.
Qed.

(** A guarded body that ends normally is the whole run. *)
Lemma gtry_ok {A} (body : G A) (handler : exn -> G A) (w : World) (a : A) :
  ended (body w) = inr a -> gtry body handler w = body w.
Proof.
  unfold gtry. intros ->. reflexivity.
Qed.

(** A guarded body that raises is followed by the handler. *)
Lemma gtry_raise {A} (body : G A) (handler : exn -> G A) (w : World) (e : exn) :
  ended (body w) = inl e ->
  gtry body handler w =
  mkRun (yielded (body w) ++ yielded (handler e (after (body w))))%list
        (ended (handler e (after (body w)))) (after (handler e (after (body w)))).
Proof.
  unfold gtry. intros ->. reflexivity.
Qed.

Lemma yielded_gyield (s : string) (w : World) : yielded (gyield s w) = [s].
Proof. reflexivity. Qed.

Lemma yielded_glift {A} (m : M A) (w : World) : yielded (glift m w) = [].
Proof. unfold glift. destruct (m w). reflexivity. Qed.

(** A log call made inside a generator: it yields nothing, and it raises
    exactly when the environment says so for the event it logs. *)
Lemma glift_logger_raises (level event : string) (fields : list (string * string))
    (w : World) (e : exn) :
  log_fault w event = Some e ->
  glift (logger level event fields) w = mkRun [] (inl e) w.
Proof.
  intro H. unfold glift, logger. rewrite H. reflexivity.
Qed.

Lemma glift_logger_ok (level event : string) (fields : list (string * string))
    (w : World) :
  log_fault w event = None ->
  ended (glift (logger level event fields) w) = inr tt.
Proof.
  intro H. unfold glift, logger. rewrite H. reflexivity.
Qed.

(** A loop that ends normally has yielded what each turn yields, in the
    order of the turns. *)
Lemma gfor_ok {A} (xs : list A) (frame : A -> string) (step : M unit) (w : World) :
  ended (Routes.gfor xs (fun x => gbind (gyield (frame x)) (fun _ => glift step)) w)
    = inr tt ->
  yielded (Routes.gfor xs (fun x => gbind (gyield (frame x)) (fun _ => glift step)) w)
    = map frame xs.
Proof.
  revert w; induction xs as [|x xs IH]; intros w H; simpl in *.
  - reflexivity.
  - apply gbind_ok in H. destruct H as ([] & _ & Hrest & Hy & _).
    rewrite Hy, (IH _ Hrest).
    unfold gbind at 1. rewrite yielded_gyield.
    change (ended (gyield (frame x) w)) with (@inr exn unit tt).
    cbv iota beta. cbn [yielded]. now rewrite yielded_glift.
Qed.

End GenFacts.

(** ** The event stream of [POST /api/widget/chat/stream] *)

Module SseFacts.

Import Sse.

(** The payload of an event of a known type is determined by its text. *)
Lemma frame_payload_unique (event p q : string) : frame event p = frame event q -> p = q.
Proof.
  unfold frame. induction event as [|c event IH]; simpl; intro H.
  - injection H as H. now apply StrFacts.append_cancel_r in H.
  - apply IH. simpl. injection H as H. simpl in H. now rewrite H.
Qed.

(** The [try] block, when nothing raises, yields [start], the chunks,
    [sources] and [done], in this order. *)
Lemma stream_try_ok (trace_id : string) (request : Models.ChatRequest) (w : World) :
  ended (Routes.stream_try trace_id request w) = inr tt ->
  yielded (Routes.stream_try trace_id request w) = success_frames trace_id request.
Proof.
  unfold Routes.stream_try. intro H.
  apply GenFacts.gbind_ok in H. destruct H as ([] & _ & H & Hy1 & _). rewrite Hy1.
  apply GenFacts.gbind_ok in H. destruct H as ([] & Hloop & H & Hy2 & _). rewrite Hy2.
  apply GenFacts.gbind_ok in H. destruct H as ([] & _ & H & Hy3 & _). rewrite Hy3.
  apply GenFacts.gbind_ok in H. destruct H as ([] & _ & H & Hy4 & _). rewrite Hy4.
  rewrite (GenFacts.gfor_ok _
             (fun i => ("event: chunk" ++ Py.LF ++ "data: "
                        ++ Py.slice (Routes.mock_response request) i (i + Routes.chunk_size)
                        ++ Py.LF ++ Py.LF)%string) sleep _ Hloop).
  rewrite !GenFacts.yielded_gyield, GenFacts.yielded_glift.
  unfold success_frames, chunks. rewrite map_map. reflexivity.
Qed.

End SseFacts.

(** ** Dependencies and routes *)

Module RouteFacts.

Lemma startswith_not_falsy (s : string) :
  Py.startswith s "pk_" = true -> Py.is_falsy s = false.
Proof.
  destruct s; [discriminate | reflexivity].
Qed.

Lemma validate_api_key_accepts (key : string) (w : World) :
  Py.startswith key "pk_" = true ->
  Routes.validate_api_key key w =
  (inr [ ("client_id", Some "mock_client_123"); ("tier", Some "free");
         ("model", Some "gpt-4o-mini"); ("system_prompt", None) ], w).
Proof.
  intro H. unfold Routes.validate_api_key.
  rewrite H, (startswith_not_falsy _ H). reflexivity.
Qed.

Lemma validate_api_key_rejects (key : string) (w : World) :
  Py.startswith key "pk_" = false ->
  Routes.validate_api_key key w = (inl (HTTPException 401 "Invalid API key"), w).
Proof.
  intro H. unfold Routes.validate_api_key.
  rewrite H, orb_true_r. reflexivity.
Qed.

Lemma depends_api_key_accepts (req : Http.Request) (key : string) (w : World) :
  Http.headers_get (Http.headers req) "x-api-key" = Some key ->
  Py.startswith key "pk_" = true ->
  Routes.depends_api_key req w =
  (inr (inr [ ("client_id", Some "mock_client_123"); ("tier", Some "free");
              ("model", Some "gpt-4o-mini"); ("system_prompt", None) ]), w).
Proof.
  intros Hh Hk. unfold Routes.depends_api_key. rewrite Hh.
  unfold bind. rewrite (validate_api_key_accepts _ _ Hk). reflexivity.
Qed.

Lemma depends_api_key_rejects (req : Http.Request) (key : string) (w : World) :
  Http.headers_get (Http.headers req) "x-api-key" = Some key ->
  Py.startswith key "pk_" = false ->
  Routes.depends_api_key req w = (inl (HTTPException 401 "Invalid API key"), w).
Proof.
  intros Hh Hk. unfold Routes.depends_api_key. rewrite Hh.
  unfold bind. rewrite (validate_api_key_rejects _ _ Hk). reflexivity.
Qed.

Lemma depends_api_key_missing (req : Http.Request) (w : World) :
  Http.headers_get (Http.headers req) "x-api-key" = None ->
  Routes.depends_api_key req w = (inr (inl [(["header"; "x-api-key"], "missing")]), w).
Proof.
  intros Hh. unfold Routes.depends_api_key. rewrite Hh. reflexivity.
Qed.


End RouteFacts.

(** ** Claims about the event stream *)

(** X17. In a stream whose [try] block meets no exception, the strings the
    generator writes behind [data: ] in its [chunk] events are, in order,
    the consecutive slices of the generated text: the [k]-th one is the
    text from character [10 k] to [10 k + 10], and joined in emission
    order they are exactly the text. Each is written as it is, with the
    line feeds it may hold. *)
Theorem X17_loop_slices_rebuild_text :
  forall (trace_id : string) (request : Models.ChatRequest) (w : World) (k : nat),
    ended (Routes.stream_try trace_id request w) = inr tt ->
    k < length (Sse.chunks request) ->
    yielded (Routes.generate_stream trace_id request w)
      = (Sse.frame "start" trace_id :: map (Sse.frame "chunk") (Sse.chunks request)
         ++ [ Sse.frame "sources" "[]"; Sse.frame "done" "[DONE]" ])%list
    /\ Sse.join (Sse.chunks request) = Routes.mock_response request
    /\ nth k (Sse.chunks request) EmptyString
       = Py.slice (Routes.mock_response request)
           (k * Routes.chunk_size) (k * Routes.chunk_size + Routes.chunk_size).
Proof.
  intros trace_id request w k Hok Hk. split; [|split].
  - unfold Routes.generate_stream. rewrite (GenFacts.gtry_ok _ _ _ _ Hok).
    now apply SseFacts.stream_try_ok.
  - unfold Sse.chunks, Py.range.
    rewrite StrFacts.join_slices_from.
    + rewrite Nat.sub_0_r. apply StrFacts.substring_all.
    + unfold Routes.chunk_size. lia.
    + lia.
  - unfold Sse.chunks in *. rewrite length_map in Hk.
    rewrite (nth_indep _ EmptyString
               (Py.slice (Routes.mock_response request) 0 (0 + Routes.chunk_size)))
      by (rewrite length_map; exact Hk).
    rewrite (map_nth (fun i => Py.slice (Routes.mock_response request) i
                                 (i + Routes.chunk_size))).
    unfold Py.range in *. rewrite StrFacts.range_from_nth by exact Hk.
    reflexivity.
Qed.

Lemma X17_loop_slices_rebuild_text_witness :
  ended (Routes.stream_try "t-1" Sample.chat_request Sample.quiet_world) = inr tt
  /\ 6 < length (Sse.chunks Sample.chat_request)
  /\ Sse.join (Sse.chunks Sample.chat_request) = Routes.mock_response Sample.chat_request
  /\ nth 6 (Sse.chunks Sample.chat_request) EmptyString
     = ("..'" ++ Py.LF ++ Py.LF ++ "The a")%string.
Proof.
  assert (H1 : ended (Routes.stream_try "t-1" Sample.chat_request Sample.quiet_world)
               = inr tt) by reflexivity.
  assert (H2 : 6 < length (Sse.chunks Sample.chat_request)) by (vm_compute; lia).
  destruct (X17_loop_slices_rebuild_text "t-1" Sample.chat_request Sample.quiet_world 6 H1 H2)
    as (_ & Hjoin & Hnth).
  split; [exact H1 | split; [exact H2 | split; [exact Hjoin |]]].
  rewrite Hnth. reflexivity.
Defined.




(** The chunk loop in an environment whose pauses never raise: it ends
    normally, yields one event per turn, and leaves the fault behaviour of
    the environment as it found it. *)
Lemma gfor_quiet {A} (xs : list A) (frame : A -> string) (w : World) :
  (forall k, sleep_fault w k = None) ->
  ended (Routes.gfor xs (fun x => gbind (gyield (frame x)) (fun _ => glift sleep)) w)
    = inr tt
  /\ yielded (Routes.gfor xs (fun x => gbind (gyield (frame x)) (fun _ => glift sleep)) w)
     = map frame xs
  /\ log_fault (after (Routes.gfor xs
                         (fun x => gbind (gyield (frame x)) (fun _ => glift sleep)) w))
     = log_fault w.
Proof.
  revert w; induction xs as [|x xs IH]; intros w Hq.
  - repeat split.
  - assert (Hstep : gbind (gyield (frame x)) (fun _ => glift sleep) w
                    = mkRun [frame x] (inr tt)
                        (mkWorld (entropy w) (entropy_used w) (clock_ms w) (elapsed_ms w) (clock_reads w)
                                 (sleep_fault w) (S (sleeps w)) (log_fault w) (logged w)
                                 (scope_state w))).
    { unfold gbind, gyield, glift, sleep. cbn [ended after yielded].
      rewrite (Hq (sleeps w)). reflexivity. }
    cbn [Routes.gfor].
    rewrite (GenFacts.gbind_step _ _ w tt) by (rewrite Hstep; reflexivity).
    rewrite Hstep. cbn [ended after yielded].
    destruct (IH (mkWorld (entropy w) (entropy_used w) (clock_ms w) (elapsed_ms w) (clock_reads w)
                          (sleep_fault w) (S (sleeps w)) (log_fault w) (logged w)
                          (scope_state w)) Hq) as (He & Hy & Hl).
    rewrite He, Hy, Hl. repeat split.
Qed.

(** When only the log call after the [done] event raises, the [try] block
    has already yielded the whole successful sequence. *)
Lemma stream_try_raises_after_done (trace_id : string) (request : Models.ChatRequest)
    (w : World) (e : exn) :
  (forall k, sleep_fault w k = None) ->
  log_fault w "chat_stream_completed" = Some e ->
  ended (Routes.stream_try trace_id request w) = inl e
  /\ yielded (Routes.stream_try trace_id request w) = Sse.success_frames trace_id request
  /\ log_fault (after (Routes.stream_try trace_id request w)) = log_fault w.
Proof.
  intros Hq Hdone.
  destruct (gfor_quiet
              (Py.range 0 (String.length (Routes.mock_response request)) Routes.chunk_size)
              (fun i => ("event: chunk" ++ Py.LF ++ "data: "
                         ++ Py.slice (Routes.mock_response request) i (i + Routes.chunk_size)
                         ++ Py.LF ++ Py.LF)%string)
              w Hq) as (He & Hy & Hl).
  unfold Routes.stream_try.
  rewrite (GenFacts.gbind_step (gyield _) _ w tt eq_refl).
  cbn [ended after yielded gyield].
  rewrite (GenFacts.gbind_step _ _ w tt He).
  cbn [ended after yielded].
  rewrite (GenFacts.gbind_step (gyield _) _ _ tt eq_refl).
  cbn [ended after yielded gyield].
  rewrite (GenFacts.gbind_step (gyield _) _ _ tt eq_refl).
  cbn [ended after yielded gyield].
  unfold logger_info.
  rewrite (GenFacts.glift_logger_raises _ _ _ _ e) by (rewrite Hl; exact Hdone).
  cbn [ended after yielded]. rewrite Hy, Hl.
  split; [reflexivity | split; [|reflexivity]].
  unfold Sse.success_frames, Sse.chunks. rewrite map_map. reflexivity.
Qed.

(** The [except] clause then yields an [error] event behind them. *)
Lemma error_after_done (trace_id : string) (request : Models.ChatRequest)
    (w : World) (e : exn) :
  (forall k, sleep_fault w k = None) ->
  log_fault w "chat_stream_completed" = Some e ->
  log_fault w "chat_stream_error" = None ->
  yielded (Routes.generate_stream trace_id request w)
  = (Sse.success_frames trace_id request ++ [Sse.error_frame e])%list.
Proof.
  intros Hq Hdone Herr.
  destruct (stream_try_raises_after_done trace_id request w e Hq Hdone) as (He & Hy & Hl).
  unfold Routes.generate_stream. rewrite (GenFacts.gtry_raise _ _ _ _ He).
  cbn [yielded]. rewrite Hy. f_equal.
  unfold Routes.stream_except.
  assert (Hlog : ended (glift (logger_error "chat_stream_error"
                                 [("trace_id", trace_id); ("error", exn_str e)])
                          (after (Routes.stream_try trace_id request w))) = inr tt).
  { apply GenFacts.glift_logger_ok. rewrite Hl. exact Herr. }
  rewrite (GenFacts.gbind_step _ _ _ tt Hlog). cbn [yielded].
  rewrite GenFacts.yielded_glift. reflexivity.
Qed.

(** The chunk loop when the pause of turn [k] is the first to raise: the
    loop stops there, having yielded the events of the turns up to and
    including [k]. *)
Lemma gfor_raises {A} (xs : list A) (frame : A -> string) (w : World) (k : nat) (e : exn) :
  (forall j, j < k -> sleep_fault w (sleeps w + j) = None) ->
  sleep_fault w (sleeps w + k) = Some e ->
  k < length xs ->
  ended (Routes.gfor xs (fun x => gbind (gyield (frame x)) (fun _ => glift sleep)) w)
    = inl e
  /\ yielded (Routes.gfor xs (fun x => gbind (gyield (frame x)) (fun _ => glift sleep)) w)
     = map frame (firstn (S k) xs)
  /\ log_fault (after (Routes.gfor xs
                         (fun x => gbind (gyield (frame x)) (fun _ => glift sleep)) w))
     = log_fault w.
Proof.
  revert w k; induction xs as [|x xs IH]; intros w k Hbefore Hat Hk; simpl in Hk; [lia|].
  cbn [Routes.gfor].
  destruct k as [|k].
  - assert (Hstep : gbind (gyield (frame x)) (fun _ => glift sleep) w
                    = mkRun [frame x] (inl e)
                        (mkWorld (entropy w) (entropy_used w) (clock_ms w) (elapsed_ms w) (clock_reads w)
                                 (sleep_fault w) (S (sleeps w)) (log_fault w) (logged w)
                                 (scope_state w))).
    { unfold gbind, gyield, glift, sleep. cbn [ended after yielded].
      rewrite Nat.add_0_r in Hat. rewrite Hat. reflexivity. }
    rewrite (GenFacts.gbind_raise _ _ w e) by (rewrite Hstep; reflexivity).
    rewrite Hstep. repeat split.
  - assert (Hstep : gbind (gyield (frame x)) (fun _ => glift sleep) w
                    = mkRun [frame x] (inr tt)
                        (mkWorld (entropy w) (entropy_used w) (clock_ms w) (elapsed_ms w) (clock_reads w)
                                 (sleep_fault w) (S (sleeps w)) (log_fault w) (logged w)
                                 (scope_state w))).
    { unfold gbind, gyield, glift, sleep. cbn [ended after yielded].
      pose proof (Hbefore 0 ltac:(lia)) as H0. rewrite Nat.add_0_r in H0.
      rewrite H0. reflexivity. }
    rewrite (GenFacts.gbind_step _ _ w tt) by (rewrite Hstep; reflexivity).
    rewrite Hstep. cbn [ended after yielded].
    destruct (IH (mkWorld (entropy w) (entropy_used w) (clock_ms w) (elapsed_ms w) (clock_reads w)
                          (sleep_fault w) (S (sleeps w)) (log_fault w) (logged w)
                          (scope_state w)) k) as (He & Hy & Hl).
    + intros j Hj. cbn [sleep_fault sleeps].
      replace (S (sleeps w) + j) with (sleeps w + S j) by lia. apply Hbefore. lia.
    + cbn [sleep_fault sleeps].
      replace (S (sleeps w) + k) with (sleeps w + S k) by lia. exact Hat.
    + lia.
    + rewrite He, Hy, Hl. repeat split.
Qed.

Lemma chunk_frames_not_terminal (payloads : list string) :
  filter Sse.is_terminal (map (Sse.frame "chunk") payloads) = [].
Proof.
  induction payloads as [|c cs IH]; [reflexivity|].
  cbn [map filter].
  assert (H : Sse.is_terminal (Sse.frame "chunk" c) = false) by reflexivity.
  rewrite H. exact IH.
Qed.

(** The successful sequence holds one terminal event. *)
Lemma success_has_one_terminal (trace_id : string) (request : Models.ChatRequest) :
  Sse.count_terminal (Sse.success_frames trace_id request) = 1.
Proof.
  unfold Sse.count_terminal, Sse.success_frames.
  cbn [filter].
  assert (H : Sse.is_terminal (Sse.frame "start" trace_id) = false) by reflexivity.
  rewrite H, filter_app, chunk_frames_not_terminal. reflexivity.
Qed.

(** What the code does for an exception raised before the [done] event:
    when the pause of turn [k] of the chunk loop is the first call to
    raise, the stream is [start], the first [k + 1] chunks and one [error]
    event with the code [STREAM_ERROR] and the text of the exception; it
    holds one terminal event, the last one, and no [done]. *)
Lemma error_replaces_done (trace_id : string) (request : Models.ChatRequest)
    (w : World) (k : nat) (e : exn) :
  (forall j, j < k -> sleep_fault w (sleeps w + j) = None) ->
  sleep_fault w (sleeps w + k) = Some e ->
  k < length (Sse.chunks request) ->
  log_fault w "chat_stream_error" = None ->
  yielded (Routes.generate_stream trace_id request w)
  = (Sse.frame "start" trace_id
     :: map (Sse.frame "chunk") (firstn (S k) (Sse.chunks request))
     ++ [ Sse.error_frame e ])%list
  /\ Sse.count_terminal (yielded (Routes.generate_stream trace_id request w)) = 1.
Proof.
  intros Hbefore Hat Hk Herr.
  unfold Sse.chunks in Hk. rewrite length_map in Hk.
  destruct (gfor_raises
              (Py.range 0 (String.length (Routes.mock_response request)) Routes.chunk_size)
              (fun i => ("event: chunk" ++ Py.LF ++ "data: "
                         ++ Py.slice (Routes.mock_response request) i (i + Routes.chunk_size)
                         ++ Py.LF ++ Py.LF)%string)
              w k e Hbefore Hat Hk) as (He & Hy & Hl).
  assert (Htry : ended (Routes.stream_try trace_id request w) = inl e
                 /\ yielded (Routes.stream_try trace_id request w)
                    = (Sse.frame "start" trace_id
                       :: map (Sse.frame "chunk") (firstn (S k) (Sse.chunks request)))%list
                 /\ log_fault (after (Routes.stream_try trace_id request w)) = log_fault w).
  { unfold Routes.stream_try.
    rewrite (GenFacts.gbind_step (gyield _) _ w tt eq_refl).
    cbn [ended after yielded gyield].
    rewrite (GenFacts.gbind_raise _ _ w e He).
    cbn [ended after yielded]. rewrite Hy, Hl.
    split; [reflexivity | split; [|reflexivity]].
    unfold Sse.chunks. rewrite firstn_map, map_map. reflexivity. }
  destruct Htry as (Hte & Hty & Htl).
  assert (Hrun : yielded (Routes.generate_stream trace_id request w)
                 = (Sse.frame "start" trace_id
                    :: map (Sse.frame "chunk") (firstn (S k) (Sse.chunks request))
                    ++ [ Sse.error_frame e ])%list).
  { unfold Routes.generate_stream. rewrite (GenFacts.gtry_raise _ _ _ _ Hte).
    cbn [yielded]. rewrite Hty. cbn [app]. f_equal. f_equal.
    unfold Routes.stream_except.
    assert (Hlog : ended (glift (logger_error "chat_stream_error"
                                   [("trace_id", trace_id); ("error", exn_str e)])
                            (after (Routes.stream_try trace_id request w))) = inr tt).
    { apply GenFacts.glift_logger_ok. rewrite Htl. exact Herr. }
    rewrite (GenFacts.gbind_step _ _ _ tt Hlog). cbn [yielded].
    rewrite GenFacts.yielded_glift. reflexivity. }
  split; [exact Hrun|].
  rewrite Hrun. unfold Sse.count_terminal.
  cbn [filter].
  assert (H : Sse.is_terminal (Sse.frame "start" trace_id) = false) by reflexivity.
  rewrite H, filter_app, chunk_frames_not_terminal. reflexivity.
Qed.

(** An exception raised while the chunks are sent: the stream stops at
    that point and ends with one [error] event, without [done]. *)
Example error_replaces_done_mid_stream :
  yielded (Routes.generate_stream "t-1" Sample.chat_request Sample.second_pause_fails)
  = [ Sse.frame "start" "t-1";
      Sse.frame "chunk" "This is a ";
      Sse.frame "chunk" "mock strea";
      Sse.error_frame (PyException "RuntimeError" "boom") ]
  /\ Sse.count_terminal
       (yielded (Routes.generate_stream "t-1" Sample.chat_request Sample.second_pause_fails))
     = 1.
Proof.
  split; vm_compute; reflexivity.
Qed.

(** C2, where the code departs from it. The log call that reports the end
    of the stream stands inside the [try] block, after the [done] event.
    For the request below, in an environment where that call raises, the
    stream holds the complete successful sequence, [done] included, and
    then an [error] event: two terminal events, one after the other. *)
Theorem C2_error_event_follows_done :
  exists (resp : Response) (w' : World),
    Routes.exception_middleware Routes.route_chat_stream
      (Sample.post_chat_stream [("x-api-key", "pk_live_1")]) Sample.completed_log_fails
    = (inr resp, w')
    /\ yielded (Main.send_body resp w')
       = (Sse.success_frames Sample.first_trace_id Sample.chat_request
          ++ [ Sse.error_frame (PyException "OSError" "log sink closed") ])%list
    /\ Sse.count_terminal (yielded (Main.send_body resp w')) = 2.
Proof.
  eexists. eexists. split; [reflexivity|].
  cbn [Main.send_body response_body StreamingResponse].
  rewrite (error_after_done _ _ _ (PyException "OSError" "log sink closed"));
    try reflexivity; try (intro; reflexivity).
  split; [reflexivity | vm_compute; reflexivity].
Qed.

(** ** Claims about the dependency checks *)

(** The two routes behind the API-key check, with the framework's
    exception handlers around them. *)
Lemma key_routes_without_header (req : Http.Request) (w : World) :
  Http.headers_get (Http.headers req) "x-api-key" = None ->
  (exists resp, Routes.exception_middleware Routes.route_chat req w = (inr resp, w)
                /\ status_code resp = 422)
  /\ (exists resp, Routes.exception_middleware Routes.route_chat_stream req w = (inr resp, w)
                   /\ status_code resp = 422).
Proof.
  intro Hh.
  unfold Routes.exception_middleware, Routes.route_chat, Routes.route_chat_stream, bind.
  rewrite (RouteFacts.depends_api_key_missing _ _ Hh).
  destruct (Models.validate_ChatRequest (Http.body req)); cbn;
    split; eexists; split; reflexivity.
Qed.

Lemma key_routes_with_bad_key (req : Http.Request) (key : string) (w : World) :
  Http.headers_get (Http.headers req) "x-api-key" = Some key ->
  Py.startswith key "pk_" = false ->
  Routes.exception_middleware Routes.route_chat req w
    = (inr (JSONResponse 401 (JObj [ ("detail", JStr "Invalid API key") ])), w)
  /\ Routes.exception_middleware Routes.route_chat_stream req w
     = (inr (JSONResponse 401 (JObj [ ("detail", JStr "Invalid API key") ])), w).
Proof.
  intros Hh Hk.
  unfold Routes.exception_middleware, Routes.route_chat, Routes.route_chat_stream, bind.
  rewrite (RouteFacts.depends_api_key_rejects _ _ _ Hh Hk). split; reflexivity.
Qed.

(** C4 as stated fails: a request to [POST /api/widget/chat] without any
    [x-api-key] header is answered with status 422, not 401. The header is
    declared required, so the framework rejects the request as invalid and
    the check is not called. *)
Lemma C4_missing_header_is_422 :
  Http.headers_get (Http.headers (Sample.post_chat [])) "x-api-key" = None
  /\ (exists resp,
        Routes.exception_middleware Routes.route_chat (Sample.post_chat [])
          Sample.quiet_world = (inr resp, Sample.quiet_world)
        /\ status_code resp = 422)
  /\ ~ (forall (req : Http.Request) (w : World),
          Http.headers_get (Http.headers req) "x-api-key" = None ->
          exists resp w',
            Routes.exception_middleware Routes.route_chat req w = (inr resp, w')
            /\ status_code resp = 401).
Proof.
  split; [reflexivity | split].
  - eexists. split; reflexivity.
  - intro H.
    destruct (H (Sample.post_chat []) Sample.quiet_world eq_refl) as (resp & w' & Hrun & Hcode).
    vm_compute in Hrun. injection Hrun as <- _. discriminate Hcode.
Qed.

(** C4, amended. On the two routes behind the API-key check:
    - a request without the [x-api-key] header is answered with status 422
      and the environment is left untouched;
    - a header value that does not start with [pk_] (the empty value
      included) makes the check raise the 401 error "Invalid API key"; the
      request is answered with that status and the environment is left
      untouched;
    - a header value that starts with [pk_] passes the check, which returns
      the fixed configuration with [client_id] [mock_client_123] and
      [tier] [free]. *)
Theorem C4_api_key_check :
  forall (req : Http.Request) (w : World),
    match Http.headers_get (Http.headers req) "x-api-key" with
    | None =>
        (exists resp, Routes.exception_middleware Routes.route_chat req w = (inr resp, w)
                      /\ status_code resp = 422)
        /\ (exists resp,
              Routes.exception_middleware Routes.route_chat_stream req w = (inr resp, w)
              /\ status_code resp = 422)
    | Some key =>
        if Py.startswith key "pk_"
        then exists cfg,
               Routes.validate_api_key key w = (inr cfg, w)
               /\ Py.dict_get cfg "client_id" = Some (Some "mock_client_123")
               /\ Py.dict_get cfg "tier" = Some (Some "free")
        else Routes.validate_api_key key w = (inl (HTTPException 401 "Invalid API key"), w)
             /\ Routes.exception_middleware Routes.route_chat req w
                = (inr (JSONResponse 401 (JObj [ ("detail", JStr "Invalid API key") ])), w)
             /\ Routes.exception_middleware Routes.route_chat_stream req w
                = (inr (JSONResponse 401 (JObj [ ("detail", JStr "Invalid API key") ])), w)
    end.
Proof.
  intros req w.
  destruct (Http.headers_get (Http.headers req) "x-api-key") as [key|] eqn:Hh.
  - destruct (Py.startswith key "pk_") eqn:Hk.
    + eexists. split; [apply (RouteFacts.validate_api_key_accepts _ _ Hk) |].
      split; reflexivity.
    + split; [apply (RouteFacts.validate_api_key_rejects _ _ Hk) |].
      apply (key_routes_with_bad_key _ _ _ Hh Hk).
  - apply (key_routes_without_header _ _ Hh).
Qed.

Lemma validate_internal_secret_accepts (settings : Config.Settings) (w : World) :
  Routes.validate_internal_secret settings (Some (Config.internal_api_secret settings)) w
  = (inr true, w).
Proof.
  unfold Routes.validate_internal_secret, Routes.differs.
  rewrite String.eqb_refl. reflexivity.
Qed.



(** C9. With the internal secret in place, the status route answers every
    document identifier with status 200 and the same snapshot: the
    identifier it was given, status [completed], progress 100, 10 chunks
    in total and 10 processed. *)
Theorem C9_document_status_snapshot :
  forall (settings : Config.Settings) (req : Http.Request) (document_id : string)
         (w : World),
    Http.headers_get (Http.headers req) "X-Internal-Secret"
      = Some (Config.internal_api_secret settings) ->
    Routes.exception_middleware
      (Routes.route_get_document_status settings document_id) req w
    = (inr (mkResponse 200 "application/json" []
              (BStatus (Models.mkDocumentStatusResponse document_id Models.completed
                          100 None (Some 10%Z) (Some 10%Z) None))), w).
Proof.
  intros settings req document_id w Hh.
  unfold Routes.exception_middleware, Routes.route_get_document_status,
    Routes.depends_internal_secret, bind.
  rewrite Hh, validate_internal_secret_accepts. reflexivity.
Qed.

Lemma C9_document_status_snapshot_witness :
  Http.headers_get
    (Http.headers (Sample.get_status [("x-internal-secret", "internal-secret")]))
    "X-Internal-Secret" = Some (Config.internal_api_secret Config.default_settings)
  /\ Routes.exception_middleware
       (Routes.route_get_document_status Config.default_settings "doc-1")
       (Sample.get_status [("x-internal-secret", "internal-secret")]) Sample.quiet_world
     = (inr (mkResponse 200 "application/json" []
               (BStatus (Models.mkDocumentStatusResponse "doc-1" Models.completed
                           100 None (Some 10%Z) (Some 10%Z) None))), Sample.quiet_world).
Proof.
  split; [reflexivity|].
  apply (C9_document_status_snapshot Config.default_settings
           (Sample.get_status [("x-internal-secret", "internal-secret")]) "doc-1"
           Sample.quiet_world).
  reflexivity.
Defined.

(** C10 as stated fails for a missing key: [api_key] is a required query
    parameter, and a call without it is answered with status 422, not with
    a 200 response that says [valid] false. *)
Lemma C10_missing_api_key_is_422 :
  Http.query_get
    (Http.query (Sample.post_validate_client [("x-internal-secret", "internal-secret")] []))
    "api_key" = None
  /\ (exists resp,
        Routes.exception_middleware (Routes.route_validate_client Config.default_settings)
          (Sample.post_validate_client [("x-internal-secret", "internal-secret")] [])
          Sample.quiet_world
        = (inr resp, Sample.quiet_world)
        /\ status_code resp = 422)
  /\ ~ (forall (req : Http.Request) (w : World),
          Http.headers_get (Http.headers req) "X-Internal-Secret"
            = Some (Config.internal_api_secret Config.default_settings) ->
          Http.query_get (Http.query req) "api_key" = None ->
          exists resp w',
            Routes.exception_middleware
              (Routes.route_validate_client Config.default_settings) req w
            = (inr resp, w')
            /\ status_code resp = 200).
Proof.
  split; [reflexivity | split].
  - eexists. split; reflexivity.
  - intro H.
    destruct (H (Sample.post_validate_client [("x-internal-secret", "internal-secret")] [])
                Sample.quiet_world eq_refl eq_refl) as (resp & w' & Hrun & Hcode).
    vm_compute in Hrun. injection Hrun as <- _. discriminate Hcode.
Qed.

(** C10, amended. On a call of the validate-client route that passes the
    internal-secret check, the environment is left untouched and:
    - without the [api_key] parameter the answer has status 422;
    - of several [api_key] parameters the last one counts;
    - with an [api_key] that does not start with [pk_] (the empty value
      included) the answer has status 200 and says [valid] false with the
      message "Invalid API key format": no 401 is raised;
    - with an [api_key] that starts with [pk_] the answer has status 200
      and says [valid] true with the fixed client fields. *)
Theorem C10_validate_client :
  forall (settings : Config.Settings) (req : Http.Request) (w : World),
    Http.headers_get (Http.headers req) "X-Internal-Secret"
      = Some (Config.internal_api_secret settings) ->
    match Http.query_get (Http.query req) "api_key" with
    | None =>
        exists resp,
          Routes.exception_middleware (Routes.route_validate_client settings) req w
          = (inr resp, w)
          /\ status_code resp = 422
    | Some api_key =>
        Routes.exception_middleware (Routes.route_validate_client settings) req w
        = (inr (JSONResponse 200
                  (if Py.startswith api_key "pk_"
                   then JObj [ ("valid", JBool true);
                               ("client_id", JStr "mock_client_123");
                               ("tier", JStr "free");
                               ("model", JStr "gpt-4o-mini");
                               ("allowed_domains", JArr [ JStr "*" ]) ]
                   else JObj [ ("valid", JBool false);
                               ("error_message", JStr "Invalid API key format") ])), w)
    end.
Proof.
  intros settings req w Hh.
  unfold Routes.exception_middleware, Routes.route_validate_client,
    Routes.depends_internal_secret, Routes.query_param, bind.
  rewrite Hh, validate_internal_secret_accepts.
  destruct (Http.query_get (Http.query req) "api_key") as [api_key|].
  - unfold Routes.validate_client.
    destruct (Py.startswith api_key "pk_") eqn:Hk.
    + rewrite (RouteFacts.startswith_not_falsy _ Hk). reflexivity.
    + rewrite orb_true_r. reflexivity.
  - eexists. split; reflexivity.
Qed.

Lemma C10_validate_client_witness :
  Http.headers_get
    (Http.headers (Sample.post_validate_client [("x-internal-secret", "internal-secret")]
                     [("api_key", "sk_1")]))
    "X-Internal-Secret" = Some (Config.internal_api_secret Config.default_settings)
  /\ Routes.exception_middleware (Routes.route_validate_client Config.default_settings)
       (Sample.post_validate_client [("x-internal-secret", "internal-secret")]
          [("api_key", "sk_1")]) Sample.quiet_world
     = (inr (JSONResponse 200
               (JObj [ ("valid", JBool false);
                       ("error_message", JStr "Invalid API key format") ])),
        Sample.quiet_world).
Proof.
  split; [reflexivity|].
  apply (C10_validate_client Config.default_settings
           (Sample.post_validate_client [("x-internal-secret", "internal-secret")]
              [("api_key", "sk_1")]) Sample.quiet_world).
  reflexivity.
Defined.

(** ** Claims about the chat handler *)

Lemma hex_fixed_length (k : nat) (n : N) : String.length (Json.hex_fixed k n) = k.
Proof.
  revert n; induction k as [|k IH]; intro n; simpl.
  - reflexivity.
  - rewrite StrFacts.length_append, IH. simpl. lia.
Qed.

(** The text of an identifier has 36 characters. *)
Lemma uuid_str_length (i : N) : String.length (Uuid.str i) = 36.
Proof.
  unfold Uuid.str, Py.slice.
  repeat rewrite StrFacts.length_append.
  repeat rewrite StrFacts.substring_length.
  rewrite hex_fixed_length. reflexivity.
Qed.

(** The chat handler, called with the configuration the API-key check
    resolves, in an environment where nothing raises. *)
Lemma chat_returns (request : Models.ChatRequest) (w : World) :
  quiet w ->
  exists text w',
    Routes.chat request
      [ ("client_id", Some "mock_client_123"); ("tier", Some "free");
        ("model", Some "gpt-4o-mini"); ("system_prompt", None) ] w
    = (inr (Models.mkChatResponse text (Models.session_id request) (Some [])
              (Uuid.str (Uuid.uuid4_int (entropy w (entropy_used w))))), w')
    /\ entropy_used w' = S (entropy_used w).
Proof.
  intros [Hsleep Hlog].
  unfold Routes.chat, try_except, Uuid.uuid4_str, urandom128, time, elapsed_since, Routes.getitem,
    sleep, logger_info, logger, bind, ret.
  cbn [Py.dict_get String.eqb Ascii.eqb Bool.eqb
       log_fault sleep_fault sleeps entropy entropy_used clock_ms elapsed_ms clock_reads].
  repeat (first [rewrite Hlog | rewrite Hsleep];
          cbn [log_fault sleep_fault sleeps entropy entropy_used clock_ms elapsed_ms clock_reads]).
  eexists. eexists. split; reflexivity.
Qed.

(** C5. A request to [POST /api/widget/chat] with an API key that starts
    with [pk_] and a valid body, served while no call into the environment
    raises, is answered with status 200 and a [ChatResponse] that repeats
    the request's [session_id], has an empty list of sources, and carries
    as [trace_id] the 36-character text of an identifier built from the
    next value of the random source, which the call consumes. *)
Theorem C5_chat_response :
  forall (req : Http.Request) (key : string) (request : Models.ChatRequest) (w : World),
    Http.headers_get (Http.headers req) "x-api-key" = Some key ->
    Py.startswith key "pk_" = true ->
    Models.validate_ChatRequest (Http.body req) = inr request ->
    quiet w ->
    exists (r : Models.ChatResponse) (w' : World),
      Routes.exception_middleware Routes.route_chat req w
      = (inr (mkResponse 200 "application/json" [] (BChat r)), w')
      /\ Models.cr_session_id r = Models.session_id request
      /\ Models.sources r = Some []
      /\ Models.trace_id r = Uuid.str (Uuid.uuid4_int (entropy w (entropy_used w)))
      /\ String.length (Models.trace_id r) = 36
      /\ Models.trace_id r <> EmptyString
      /\ entropy_used w' = S (entropy_used w).
Proof.
  intros req key request w Hh Hk Hb Hq.
  destruct (chat_returns request w Hq) as (text & w' & Hrun & Hused).
  eexists. exists w'. split.
  - unfold Routes.exception_middleware, Routes.route_chat, bind.
    rewrite (RouteFacts.depends_api_key_accepts _ _ _ Hh Hk), Hb, Hrun. reflexivity.
  - cbn [Models.cr_session_id Models.sources Models.trace_id].
    repeat split; auto using uuid_str_length.
    intro Hempty.
    pose proof (uuid_str_length (Uuid.uuid4_int (entropy w (entropy_used w)))) as Hlen.
    rewrite Hempty in Hlen. discriminate Hlen.
Qed.

Lemma quiet_sample : quiet Sample.quiet_world.
Proof.
  split; intro; reflexivity.
Defined.

Lemma C5_chat_response_witness :
  exists (r : Models.ChatResponse) (w' : World),
    Routes.exception_middleware Routes.route_chat
      (Sample.post_chat [("x-api-key", "pk_live_1")]) Sample.quiet_world
    = (inr (mkResponse 200 "application/json" [] (BChat r)), w')
    /\ Models.cr_session_id r = Sample.the_session
    /\ Models.sources r = Some []
    /\ Models.trace_id r = Sample.first_trace_id
    /\ String.length (Models.trace_id r) = 36
    /\ Models.trace_id r <> EmptyString
    /\ entropy_used w' = 1.
Proof.
  apply (C5_chat_response (Sample.post_chat [("x-api-key", "pk_live_1")]) "pk_live_1"
           Sample.chat_request Sample.quiet_world);
    [reflexivity | reflexivity | reflexivity | exact quiet_sample].
Defined.

(** The documented failure path of the same handler: when the awaited
    pause raises, the request is answered with the generic 500 error. *)
Example chat_failure_is_500 :
  fst (Routes.exception_middleware Routes.route_chat
         (Sample.post_chat [("x-api-key", "pk_live_1")])
         (mkWorld (fun k => N.of_nat k) 0 (fun k => Z.of_nat k) (fun _ _ => 0%Z) 0
                  (fun _ => Some (PyException "RuntimeError" "boom")) 0
                  (fun _ => None) [] []))
  = inr (JSONResponse 500 (JObj [ ("detail", JStr "Failed to process chat request") ])).
Proof.
  reflexivity.
Qed.

(** ** Claims about request validation *)

Module ValidationFacts.

Lemma session_char_wording (c : ascii) : Models.session_char c = Wording.hex_or_hyphen c.
Proof.
  destruct c as [[] [] [] [] [] [] [] []]; reflexivity.
Qed.

Lemma all_chars_forallb (p q : ascii -> bool) (s : string) :
  (forall c, p c = q c) ->
  Models.all_chars p s = forallb q (list_ascii_of_string s).
Proof.
  intro H. induction s as [|c s IH]; simpl; [reflexivity | now rewrite H, IH].
Qed.

(** The pattern of the model is the pattern the specification words. *)
Lemma session_id_pattern_wording (s : string) :
  Models.session_id_pattern s = Wording.session_id_ok s.
Proof.
  unfold Models.session_id_pattern, Wording.session_id_ok.
  now rewrite (all_chars_forallb _ _ s session_char_wording).
Qed.

Lemma message_constraint_wording (s : string) :
  if Wording.message_ok s
  then Models.message_constraint s = None
  else exists kind, Models.message_constraint s = Some kind.
Proof.
  unfold Wording.message_ok, Models.message_constraint.
  destruct (Nat.leb_spec 1 (String.length s)) as [H1|H1];
    destruct (Nat.leb_spec (String.length s) 2000) as [H2|H2];
    destruct (Nat.ltb_spec (String.length s) 1) as [H3|H3];
    destruct (Nat.ltb_spec 2000 (String.length s)) as [H4|H4];
    cbn; try lia; try reflexivity; eexists; reflexivity.
Qed.

Lemma session_id_constraint_wording (s : string) :
  if Wording.session_id_ok s
  then Models.session_id_constraint s = None
  else exists kind, Models.session_id_constraint s = Some kind.
Proof.
  unfold Models.session_id_constraint. rewrite session_id_pattern_wording.
  destruct (Wording.session_id_ok s); [reflexivity | eexists; reflexivity].
Qed.

(** Deserialization accepts exactly the bodies that satisfy the
    constraints, and reports at least one error for every other body. *)
Lemma validate_ChatRequest_wording (b : option json) :
  if Wording.chat_body_ok b
  then exists request, Models.validate_ChatRequest b = inr request
  else exists e errs, Models.validate_ChatRequest b = inl (e :: errs).
Proof.
  destruct b as [j|]; [destruct j as [| | | | |obj]|];
    try (cbn; eexists; eexists; reflexivity).
  unfold Wording.chat_body_ok, Models.validate_ChatRequest, Models.str_field,
    Models.metadata_field, Wording.metadata_ok.
  destruct (Py.dict_get obj "message") as [[| | |m| |]|];
    destruct (Py.dict_get obj "session_id") as [[| | |s| |]|];
    try (pose proof (message_constraint_wording m) as Hm;
         destruct (Models.message_constraint m));
    try (pose proof (session_id_constraint_wording s) as Hs;
         destruct (Models.session_id_constraint s));
    destruct (Py.dict_get obj "metadata") as [[| | | | |md]|];
    cbn; try (eexists; eexists; reflexivity).
  all: destruct (Wording.message_ok m); destruct (Wording.session_id_ok s); cbn;
    try (eexists; eexists; reflexivity); try (eexists; reflexivity);
    try discriminate;
    try (destruct Hm; discriminate); try (destruct Hs; discriminate).
Qed.

(** The cases the specification names all break the constraints. *)
Lemma named_cases_break_constraints (obj : list (string * json)) :
  Py.dict_get obj "message" = None
  \/ Py.dict_get obj "message" = Some (JStr EmptyString)
  \/ (exists m, Py.dict_get obj "message" = Some (JStr m) /\ 2000 < String.length m)
  \/ (exists s, Py.dict_get obj "session_id" = Some (JStr s)
                /\ Wording.session_id_ok s = false) ->
  Wording.chat_body_ok (Some (JObj obj)) = false.
Proof.
  unfold Wording.chat_body_ok.
  intros [H | [H | [(m & H & Hlen) | (s & H & Hs)]]]; rewrite H.
  - reflexivity.
  - destruct (Py.dict_get obj "session_id") as [[| | |s| |]|]; reflexivity.
  - destruct (Py.dict_get obj "session_id") as [[| | |s| |]|]; try reflexivity.
    unfold Wording.message_ok.
    destruct (Nat.leb_spec (String.length m) 2000); [lia|].
    now rewrite andb_false_r.
  - destruct (Py.dict_get obj "message") as [[| | |m| |]|]; try reflexivity.
    rewrite Hs. now rewrite andb_false_r.
Qed.

End ValidationFacts.

(** What an accepted body held: the two required fields of the request
    are the strings found in the body. *)
Lemma validate_ChatRequest_fields (b : option json) (request : Models.ChatRequest) :
  Models.validate_ChatRequest b = inr request ->
  exists obj,
    b = Some (JObj obj)
    /\ Py.dict_get obj "message" = Some (JStr (Models.message request))
    /\ Py.dict_get obj "session_id" = Some (JStr (Models.session_id request)).
Proof.
  destruct b as [j|]; [destruct j as [| | | | |obj]|]; try discriminate.
  unfold Models.validate_ChatRequest, Models.str_field, Models.metadata_field.
  intro H. exists obj. split; [reflexivity|].
  destruct (Py.dict_get obj "message") as [[| | |m| |]|];
    destruct (Py.dict_get obj "session_id") as [[| | |s| |]|];
    try destruct (Models.message_constraint m);
    try destruct (Models.session_id_constraint s);
    destruct (Py.dict_get obj "metadata") as [[| | | | |md]|];
    try discriminate H; injection H as <-; split; reflexivity.
Qed.

(** A body that deserialization rejects never reaches a chat handler: the
    request is answered with 422, or with 401 when the API key is bad as
    well, and the environment is left untouched. *)
Lemma rejected_body_stops_the_routes (req : Http.Request) (w : World)
    (errs : Models.ValidationErrors) :
  Models.validate_ChatRequest (Http.body req) = inl errs ->
  (exists resp, Routes.exception_middleware Routes.route_chat req w = (inr resp, w)
                /\ (status_code resp = 422 \/ status_code resp = 401))
  /\ (exists resp, Routes.exception_middleware Routes.route_chat_stream req w = (inr resp, w)
                   /\ (status_code resp = 422 \/ status_code resp = 401)).
Proof.
  intro Hb.
  destruct (Http.headers_get (Http.headers req) "x-api-key") as [key|] eqn:Hh.
  - destruct (Py.startswith key "pk_") eqn:Hk.
    + unfold Routes.exception_middleware, Routes.route_chat, Routes.route_chat_stream, bind.
      rewrite (RouteFacts.depends_api_key_accepts _ _ _ Hh Hk), Hb.
      split; eexists; (split; [reflexivity | left; reflexivity]).
    + destruct (key_routes_with_bad_key req key w Hh Hk) as [H1 H2].
      split; eexists; (split; [eassumption | right; reflexivity]).
  - destruct (key_routes_without_header req w Hh) as [(r1 & H1 & C1) (r2 & H2 & C2)].
    split; eexists; (split; [eassumption | left; assumption]).
Qed.

(** C7. Deserialization into [ChatRequest] accepts a body exactly when it
    satisfies the constraints: an object whose [message] is a string of 1
    to 2000 characters, whose [session_id] is a string of 36 characters
    that are lowercase hexadecimal digits or hyphens, and whose
    [metadata], if given, is null or an object. Every other body, so every
    body whose message is missing, empty or longer than 2000 characters
    or whose session identifier breaks the pattern, is rejected with at
    least one validation error; both chat routes then answer with a
    client error and leave the environment untouched, so that no handler
    logic has run. *)
Theorem C7_chat_request_validation :
  forall (req : Http.Request) (w : World),
    if Wording.chat_body_ok (Http.body req)
    then exists (request : Models.ChatRequest) (obj : list (string * json)),
           Models.validate_ChatRequest (Http.body req) = inr request
           /\ Http.body req = Some (JObj obj)
           /\ Py.dict_get obj "message" = Some (JStr (Models.message request))
           /\ Py.dict_get obj "session_id" = Some (JStr (Models.session_id request))
    else (exists e errs, Models.validate_ChatRequest (Http.body req) = inl (e :: errs))
         /\ (exists resp,
               Routes.exception_middleware Routes.route_chat req w = (inr resp, w)
               /\ (status_code resp = 422 \/ status_code resp = 401))
         /\ (exists resp,
               Routes.exception_middleware Routes.route_chat_stream req w = (inr resp, w)
               /\ (status_code resp = 422 \/ status_code resp = 401)).
Proof.
  intros req w.
  pose proof (ValidationFacts.validate_ChatRequest_wording (Http.body req)) as H.
  destruct (Wording.chat_body_ok (Http.body req)).
  - destruct H as (request & Hv).
    destruct (validate_ChatRequest_fields _ _ Hv) as (obj & Hb & Hm & Hs).
    exists request, obj. auto.
  - destruct H as (e & errs & Hv). split.
    + exists e, errs. exact Hv.
    + apply (rejected_body_stops_the_routes req w _ Hv).
Qed.

(** The cases the claim names, on concrete bodies. *)
Example chat_bodies_rejected :
  Wording.chat_body_ok (Some (JObj [ ("session_id", JStr Sample.the_session) ])) = false
  /\ Wording.chat_body_ok
       (Some (JObj [ ("message", JStr EmptyString);
                     ("session_id", JStr Sample.the_session) ])) = false
  /\ Wording.chat_body_ok
       (Some (JObj [ ("message", JStr "hello");
                     ("session_id", JStr "123E4567-e89b-12d3-a456-426614174000") ])) = false
  /\ Wording.chat_body_ok
       (Some (JObj [ ("message", JStr "hello");
                     ("session_id", JStr "123e4567") ])) = false
  /\ Wording.chat_body_ok (Some Sample.chat_body) = true.
Proof.
  repeat split.
Qed.

(** ** Claims about the application shell *)

Module HeaderFacts.

Lemma dict_get_headers_put (hs : Http.Headers) (name value : string) :
  Py.dict_get (Http.headers_put hs name value) name = Some value.
Proof.
  induction hs as [|[n v] hs IH]; simpl.
  - now rewrite String.eqb_refl.
  - destruct (String.eqb n name) eqn:E; simpl.
    + now rewrite String.eqb_refl.
    + now rewrite E.
Qed.

(** A header that was set is the one a lookup finds. *)
Lemma headers_get_set (hs : Http.Headers) (key value : string) :
  Http.headers_get (Http.headers_set hs key value) key = Some value.
Proof.
  unfold Http.headers_get, Http.headers_set. apply dict_get_headers_put.
Qed.

Lemma drop_name_none (hs : Http.Headers) (name : string) :
  filter (fun h => String.eqb (fst h) name) (Http.drop_name name hs) = [].
Proof.
  unfold Http.drop_name. induction hs as [|[n v] hs IH]; simpl; [reflexivity|].
  destruct (String.eqb n name) eqn:E; simpl; [|rewrite E]; exact IH.
Qed.

(** After a header was set, exactly one header bears its name. *)
Lemma headers_put_once (hs : Http.Headers) (name value : string) :
  filter (fun h => String.eqb (fst h) name) (Http.headers_put hs name value)
  = [(name, value)].
Proof.
  induction hs as [|[n v] hs IH]; simpl.
  - now rewrite String.eqb_refl.
  - destruct (String.eqb n name) eqn:E; simpl.
    + rewrite String.eqb_refl. f_equal. apply drop_name_none.
    + rewrite E. exact IH.
Qed.

End HeaderFacts.

(** [log_requests] around a rest of the application that answers: the
    answer goes out with the request identifier in its [X-Request-ID]
    header. *)
Lemma log_requests_returns (request : Http.Request)
    (call_next : Http.Request -> M Response) (w w1 : World) (resp0 : Response) :
  call_next request (Middleware.world_at_call_next request w) = (inr resp0, w1) ->
  log_fault w1 "http_request" = None ->
  exists w',
    Main.log_requests request call_next w
    = (inr (with_header resp0 "X-Request-ID" (Middleware.request_id_of request w)), w').
Proof.
  intros Hnext Hlog.
  unfold Main.log_requests, time, int_ms, elapsed_since, state_set, logger_info, logger,
    bind, ret.
  cbn [entropy entropy_used clock_ms elapsed_ms clock_reads sleep_fault sleeps log_fault logged
       scope_state].
  unfold Middleware.world_at_call_next, Middleware.request_id_of in Hnext.
  rewrite Hnext.
  cbn [entropy entropy_used clock_ms elapsed_ms clock_reads sleep_fault sleeps log_fault logged
       scope_state].
  rewrite Hlog. eexists. reflexivity.
Qed.

(** The generated identifier is never empty. *)
Lemma generated_id_not_empty (ms : Z) : ("req_" ++ Py.str_int ms)%string <> EmptyString.
Proof.
  discriminate.
Qed.

(** The run of the chat route on a request whose [X-Request-ID] header is
    present and empty. *)
Lemma empty_request_id_run :
  exists (resp : Response) (w' : World),
    Main.app Routes.route_chat
      (Sample.post_chat [ ("x-api-key", "pk_live_1"); ("x-request-id", EmptyString) ])
      Sample.quiet_world
    = (inr resp, w')
    /\ status_code resp = 200
    /\ Http.headers_get (response_headers resp) "X-Request-ID" = Some EmptyString.
Proof.
  eexists. eexists. split; [vm_compute; reflexivity | split; reflexivity].
Qed.

(** C6 as stated fails: a request that carries an [X-Request-ID] header
    with an empty value is answered, here with status 200, with an empty
    [X-Request-ID] header. *)
Lemma C6_empty_request_id_is_echoed :
  (exists (resp : Response) (w' : World),
     Main.app Routes.route_chat
       (Sample.post_chat [ ("x-api-key", "pk_live_1"); ("x-request-id", EmptyString) ])
       Sample.quiet_world
     = (inr resp, w')
     /\ status_code resp = 200
     /\ Http.headers_get (response_headers resp) "X-Request-ID" = Some EmptyString)
  /\ ~ (forall (request : Http.Request) (w : World) (r : Response) (w2 : World),
          Main.app Routes.route_chat request w = (inr r, w2) ->
          exists v, Http.headers_get (response_headers r) "X-Request-ID" = Some v
                    /\ v <> EmptyString).
Proof.
  split; [exact empty_request_id_run|].
  intro H.
  destruct empty_request_id_run as (resp & w' & Hrun & _ & Hh).
  destruct (H _ _ _ _ Hrun) as (v & Hv & Hne).
  rewrite Hh in Hv. injection Hv as <-. now apply Hne.
Qed.

(** An exception that no route answers passes through [log_requests]: the
    500 response of the global handler has no [X-Request-ID] header, and
    carries the identifier in its body only. *)
Example unhandled_exception_answer_has_no_header :
  exists (resp : Response) (w' : World),
    Main.app (Routes.route_process_document Config.default_settings)
      (Sample.post_document [ ("x-internal-secret", "internal-secret");
                              ("x-request-id", "abc-1") ])
      Sample.document_log_fails
    = (inr resp, w')
    /\ status_code resp = 500
    /\ Http.headers_get (response_headers resp) "X-Request-ID" = None
    /\ response_body resp
       = BJson (JObj [ ("error", JObj [ ("code", JStr "INTERNAL_ERROR");
                                        ("message", JStr "An unexpected error occurred") ]);
                       ("request_id", JStr "abc-1") ]).
Proof.
  eexists. eexists. split; [vm_compute; reflexivity | repeat split].
Qed.

(** C6, amended. Whenever the rest of the application answers a request,
    with a success or with an error response, and the request log call
    does not raise, the response goes out with an [X-Request-ID] header
    equal to the inbound header value when the request supplied one, and
    otherwise to [req_] followed by the clock reading in milliseconds,
    which is not empty. Status and body of the response are unchanged. *)
Theorem C6_request_id_header :
  forall (request : Http.Request) (call_next : Http.Request -> M Response)
         (w w1 : World) (resp0 : Response),
    call_next request (Middleware.world_at_call_next request w) = (inr resp0, w1) ->
    log_fault w1 "http_request" = None ->
    exists (resp : Response) (w' : World),
      Main.log_requests request call_next w = (inr resp, w')
      /\ status_code resp = status_code resp0
      /\ response_body resp = response_body resp0
      /\ Http.headers_get (response_headers resp) "X-Request-ID"
         = Some (Middleware.request_id_of request w)
      /\ match Http.headers_get (Http.headers request) "X-Request-ID" with
         | Some inbound => Middleware.request_id_of request w = inbound
         | None =>
             Middleware.request_id_of request w
             = ("req_" ++ Py.str_int (clock_ms w (clock_reads w)))%string
             /\ Middleware.request_id_of request w <> EmptyString
         end.
Proof.
  intros request call_next w w1 resp0 Hnext Hlog.
  destruct (log_requests_returns request call_next w w1 resp0 Hnext Hlog) as (w' & Hrun).
  eexists. exists w'. split; [exact Hrun|].
  split; [reflexivity | split; [reflexivity | split]].
  - apply HeaderFacts.headers_get_set.
  - unfold Middleware.request_id_of, Http.headers_get_default.
    destruct (Http.headers_get (Http.headers request) "X-Request-ID").
    + reflexivity.
    + split; [reflexivity | apply generated_id_not_empty].
Qed.

Lemma C6_request_id_header_witness :
  exists (resp : Response) (w' : World),
    Main.log_requests (Sample.post_chat [ ("x-api-key", "sk_1") ])
      (Routes.exception_middleware Routes.route_chat) Sample.quiet_world
    = (inr resp, w')
    /\ status_code resp = 401
    /\ response_body resp = BJson (JObj [ ("detail", JStr "Invalid API key") ])
    /\ Http.headers_get (response_headers resp) "X-Request-ID" = Some "req_1700"
    /\ ("req_1700" = ("req_" ++ Py.str_int 1700)%string /\ "req_1700" <> EmptyString).
Proof.
  apply (C6_request_id_header (Sample.post_chat [ ("x-api-key", "sk_1") ])
           (Routes.exception_middleware Routes.route_chat) Sample.quiet_world
           (Middleware.world_at_call_next (Sample.post_chat [ ("x-api-key", "sk_1") ])
              Sample.quiet_world)
           (JSONResponse 401 (JObj [ ("detail", JStr "Invalid API key") ])));
    reflexivity.
Defined.

(* ===================================================================== *)
(** * Further properties of the routes and the shell *)
(* ===================================================================== *)

(** ** Document ingestion *)

Module DocumentFacts.

(** A string field is read exactly when the body holds a string that
    meets the field's constraint; every other case is one error. *)
Lemma str_field_member (obj : list (string * json)) (name : string)
    (check : string -> option string) (ok : string -> bool) :
  (forall s, ok s = true <-> check s = None) ->
  if DocumentWording.string_member obj name ok
  then exists s, Models.str_field obj name check = inr s
                 /\ Py.dict_get obj name = Some (JStr s)
  else exists e, Models.str_field obj name check = inl [e].
Proof.
  intro Hok. unfold DocumentWording.string_member, Models.str_field.
  destruct (Py.dict_get obj name) as [[| | |s| |]|]; try (eexists; reflexivity).
  destruct (ok s) eqn:E.
  - apply Hok in E. rewrite E. eexists. split; reflexivity.
  - destruct (check s) eqn:C.
    + eexists. reflexivity.
    + apply Hok in C. congruence.
Qed.

Lemma any_string_unconstrained (s : string) :
  DocumentWording.any_string s = true <-> Models.no_constraint s = None.
Proof.
  split; reflexivity.
Qed.

Lemma known_file_type_constraint (s : string) :
  DocumentWording.known_file_type s = true <-> Models.file_type_constraint s = None.
Proof.
  unfold DocumentWording.known_file_type, Models.file_type_constraint,
    Models.file_type_pattern. cbn [existsb].
  rewrite orb_false_r, !orb_assoc.
  destruct (_ || _ || _ || _); split; intro H; try reflexivity; discriminate H.
Qed.

Lemma metadata_field_ok (obj : list (string * json)) :
  if Wording.metadata_ok (Py.dict_get obj "metadata")
  then exists md, Models.metadata_field obj = inr md
  else exists e, Models.metadata_field obj = inl [e].
Proof.
  unfold Wording.metadata_ok, Models.metadata_field.
  destruct (Py.dict_get obj "metadata") as [[| | | | |md]|]; eexists; reflexivity.
Qed.

(** Deserialization into [ProcessDocumentRequest] accepts exactly the
    bodies that satisfy the constraints, with the fields read from the
    body, and reports at least one error for every other body. *)
Lemma validate_ProcessDocumentRequest_wording (b : option json) :
  if DocumentWording.document_body_ok b
  then exists request obj,
         Models.validate_ProcessDocumentRequest b = inr request
         /\ b = Some (JObj obj)
         /\ Py.dict_get obj "document_id" = Some (JStr (Models.pd_document_id request))
         /\ Py.dict_get obj "client_id" = Some (JStr (Models.pd_client_id request))
         /\ Py.dict_get obj "file_data" = Some (JStr (Models.pd_file_data request))
         /\ Py.dict_get obj "file_type" = Some (JStr (Models.pd_file_type request))
         /\ Py.dict_get obj "original_name" = Some (JStr (Models.pd_original_name request))
  else exists e errs, Models.validate_ProcessDocumentRequest b = inl (e :: errs).
Proof.
  destruct b as [j|]; [destruct j as [| | | | |obj]|];
    try (cbn; eexists; eexists; reflexivity).
  unfold DocumentWording.document_body_ok, Models.validate_ProcessDocumentRequest.
  pose proof (str_field_member obj "document_id" _ _ any_string_unconstrained) as H1.
  pose proof (str_field_member obj "client_id" _ _ any_string_unconstrained) as H2.
  pose proof (str_field_member obj "file_data" _ _ any_string_unconstrained) as H3.
  pose proof (str_field_member obj "file_type" _ _ known_file_type_constraint) as H4.
  pose proof (str_field_member obj "original_name" _ _ any_string_unconstrained) as H5.
  pose proof (metadata_field_ok obj) as H6.
  destruct (DocumentWording.string_member obj "document_id" _);
    [destruct H1 as (s1 & -> & G1) | destruct H1 as (e1 & ->)];
  (destruct (DocumentWording.string_member obj "client_id" _);
    [destruct H2 as (s2 & -> & G2) | destruct H2 as (e2 & ->)]);
  (destruct (DocumentWording.string_member obj "file_data" _);
    [destruct H3 as (s3 & -> & G3) | destruct H3 as (e3 & ->)]);
  (destruct (DocumentWording.string_member obj "file_type" _);
    [destruct H4 as (s4 & -> & G4) | destruct H4 as (e4 & ->)]);
  (destruct (DocumentWording.string_member obj "original_name" _);
    [destruct H5 as (s5 & -> & G5) | destruct H5 as (e5 & ->)]);
  (destruct (Wording.metadata_ok _);
    [destruct H6 as (md & ->) | destruct H6 as (e6 & ->)]);
  cbn [andb Models.errors_of app];
  try (eexists; eexists; reflexivity).
  eexists. exists obj. cbn. repeat split; assumption.
Qed.

End DocumentFacts.

(** X1. On [POST /api/widget/process-document] with the internal secret in
    place, the body is accepted exactly when its five required members
    are strings, [file_type] is one of [pdf], [docx], [txt], [csv], and
    [metadata], if given, is null or an object; the request built holds
    the members of the body. Every other body is answered with status 422
    and the environment untouched: no identifier is drawn and nothing is
    logged. *)
Theorem X1_document_request_validation :
  forall (settings : Config.Settings) (req : Http.Request) (w : World),
    Http.headers_get (Http.headers req) "X-Internal-Secret"
      = Some (Config.internal_api_secret settings) ->
    if DocumentWording.document_body_ok (Http.body req)
    then exists request obj,
           Models.validate_ProcessDocumentRequest (Http.body req) = inr request
           /\ Http.body req = Some (JObj obj)
           /\ Py.dict_get obj "document_id" = Some (JStr (Models.pd_document_id request))
           /\ Py.dict_get obj "client_id" = Some (JStr (Models.pd_client_id request))
           /\ Py.dict_get obj "file_data" = Some (JStr (Models.pd_file_data request))
           /\ Py.dict_get obj "file_type" = Some (JStr (Models.pd_file_type request))
           /\ Py.dict_get obj "original_name"
              = Some (JStr (Models.pd_original_name request))
    else exists e errs,
           Models.validate_ProcessDocumentRequest (Http.body req) = inl (e :: errs)
           /\ Routes.exception_middleware (Routes.route_process_document settings) req w
              = (inr (mkResponse 422 "application/json" [] (BValidation (e :: errs))), w).
Proof.
  intros settings req w Hh.
  pose proof (DocumentFacts.validate_ProcessDocumentRequest_wording (Http.body req)) as H.
  destruct (DocumentWording.document_body_ok (Http.body req)).
  - exact H.
  - destruct H as (e & errs & Hv). exists e, errs. split; [exact Hv|].
    unfold Routes.exception_middleware, Routes.route_process_document,
      Routes.depends_internal_secret, bind.
    rewrite Hh, validate_internal_secret_accepts, Hv. reflexivity.
Qed.

Lemma X1_document_request_validation_witness :
  exists e errs,
    Models.validate_ProcessDocumentRequest
      (Some (JObj [ ("document_id", JStr "doc-1"); ("client_id", JStr "client-1");
                    ("file_data", JStr "aGVsbG8="); ("file_type", JStr "exe");
                    ("original_name", JStr "hello.exe") ]))
    = inl (e :: errs)
    /\ Routes.exception_middleware (Routes.route_process_document Config.default_settings)
         (Http.mkRequest "POST" "/api/widget/process-document"
            [ ("x-internal-secret", "internal-secret") ] []
            (Some (JObj [ ("document_id", JStr "doc-1"); ("client_id", JStr "client-1");
                          ("file_data", JStr "aGVsbG8="); ("file_type", JStr "exe");
                          ("original_name", JStr "hello.exe") ])))
         Sample.quiet_world
       = (inr (mkResponse 422 "application/json" [] (BValidation (e :: errs))),
          Sample.quiet_world).
Proof.
  apply (X1_document_request_validation Config.default_settings
           (Http.mkRequest "POST" "/api/widget/process-document"
              [ ("x-internal-secret", "internal-secret") ] []
              (Some (JObj [ ("document_id", JStr "doc-1"); ("client_id", JStr "client-1");
                            ("file_data", JStr "aGVsbG8="); ("file_type", JStr "exe");
                            ("original_name", JStr "hello.exe") ])))
           Sample.quiet_world).
  reflexivity.
Defined.

(** The ingestion handler in an environment where its log call does not
    raise. *)
Lemma process_document_returns (request : Models.ProcessDocumentRequest) (ok : bool)
    (w : World) :
  log_fault w "document_process_request" = None ->
  Routes.process_document request ok w
  = (inr (JObj [ ("success", JBool true);
                 ("document_id", JStr (Models.pd_document_id request));
                 ("trace_id",
                  JStr (Uuid.str (Uuid.uuid4_int (entropy w (entropy_used w)))));
                 ("status", JStr "processing");
                 ("message", JStr "Document processing started") ]),
     mkWorld (entropy w) (S (entropy_used w)) (clock_ms w) (elapsed_ms w) (clock_reads w)
             (sleep_fault w) (sleeps w) (log_fault w)
             (logged w
              ++ [ mkLog "info" "document_process_request"
                     [ ("trace_id",
                        Uuid.str (Uuid.uuid4_int (entropy w (entropy_used w))));
                       ("document_id", Models.pd_document_id request);
                       ("client_id", Models.pd_client_id request);
                       ("file_type", Models.pd_file_type request) ] ])%list
             (scope_state w)).
Proof.
  intro Hlog.
  unfold Routes.process_document, Uuid.uuid4_str, urandom128, logger_info, logger,
    bind, ret.
  cbn [log_fault entropy entropy_used clock_ms elapsed_ms clock_reads sleep_fault sleeps logged
       scope_state].
  rewrite Hlog. reflexivity.
Qed.

(** X2. A document request with the internal secret in place and a valid
    body, served while the handler's log call does not raise, is answered
    with status 200 and an acknowledgment that repeats the request's
    [document_id], says [processing], and carries as [trace_id] the
    36-character text of an identifier built from the next value of the
    random source. The call consumes that one value, writes one log
    record with the identifiers of the request, and does nothing else to
    the environment. *)
Theorem X2_process_document_acknowledges :
  forall (settings : Config.Settings) (req : Http.Request)
         (request : Models.ProcessDocumentRequest) (w : World),
    Http.headers_get (Http.headers req) "X-Internal-Secret"
      = Some (Config.internal_api_secret settings) ->
    Models.validate_ProcessDocumentRequest (Http.body req) = inr request ->
    log_fault w "document_process_request" = None ->
    exists (tid : string) (w' : World),
      Routes.exception_middleware (Routes.route_process_document settings) req w
      = (inr (JSONResponse 200
                (JObj [ ("success", JBool true);
                        ("document_id", JStr (Models.pd_document_id request));
                        ("trace_id", JStr tid);
                        ("status", JStr "processing");
                        ("message", JStr "Document processing started") ])), w')
      /\ tid = Uuid.str (Uuid.uuid4_int (entropy w (entropy_used w)))
      /\ String.length tid = 36
      /\ entropy_used w' = S (entropy_used w)
      /\ logged w'
         = (logged w
            ++ [ mkLog "info" "document_process_request"
                   [ ("trace_id", tid);
                     ("document_id", Models.pd_document_id request);
                     ("client_id", Models.pd_client_id request);
                     ("file_type", Models.pd_file_type request) ] ])%list
      /\ clock_reads w' = clock_reads w
      /\ sleeps w' = sleeps w
      /\ scope_state w' = scope_state w.
Proof.
  intros settings req request w Hh Hb Hlog.
  eexists. eexists. split.
  - unfold Routes.exception_middleware, Routes.route_process_document,
      Routes.depends_internal_secret, bind.
    rewrite Hh, validate_internal_secret_accepts, Hb.
    rewrite (process_document_returns request true w Hlog). reflexivity.
  - split; [reflexivity|]. split; [apply uuid_str_length|]. repeat split.
Qed.

Lemma X2_process_document_acknowledges_witness :
  exists (tid : string) (w' : World),
    Routes.exception_middleware (Routes.route_process_document Config.default_settings)
      (Sample.post_document [ ("x-internal-secret", "internal-secret") ])
      Sample.quiet_world
    = (inr (JSONResponse 200
              (JObj [ ("success", JBool true);
                      ("document_id", JStr "doc-1");
                      ("trace_id", JStr tid);
                      ("status", JStr "processing");
                      ("message", JStr "Document processing started") ])), w')
    /\ tid = Sample.first_trace_id
    /\ String.length tid = 36
    /\ entropy_used w' = 1
    /\ logged w'
       = [ mkLog "info" "document_process_request"
             [ ("trace_id", tid); ("document_id", "doc-1");
               ("client_id", "client-1"); ("file_type", "txt") ] ]
    /\ clock_reads w' = 0
    /\ sleeps w' = 0
    /\ scope_state w' = [].
Proof.
  apply (X2_process_document_acknowledges Config.default_settings
           (Sample.post_document [ ("x-internal-secret", "internal-secret") ])
           (Models.mkProcessDocumentRequest "doc-1" "client-1" "aGVsbG8=" "txt"
              "hello.txt" None)
           Sample.quiet_world);
    reflexivity.
Defined.

(** ** Failure paths *)

(** X3. When a route lets an exception through that the framework does
    not answer itself, and leaves the request state alone, the
    application answers with status 500 and the fixed envelope: code
    [INTERNAL_ERROR], the generic message, and as [request_id] the very
    identifier the logging middleware chose for the request. The text of
    the exception appears in the log record only. The response has no
    [X-Request-ID] header, and no [http_request] record is written. *)
Theorem X3_unhandled_exception_envelope :
  forall (route : Http.Request -> M Response) (request : Http.Request)
         (w w1 : World) (exc : exn),
    Routes.exception_middleware route request (Middleware.world_at_call_next request w)
      = (inl exc, w1) ->
    scope_state w1 = scope_state (Middleware.world_at_call_next request w) ->
    log_fault w1 "unhandled_exception" = None ->
    exists (resp : Response) (w' : World),
      Main.app route request w = (inr resp, w')
      /\ resp = JSONResponse 500
                  (JObj [ ("error", JObj [ ("code", JStr "INTERNAL_ERROR");
                                           ("message", JStr "An unexpected error occurred") ]);
                          ("request_id", JStr (Middleware.request_id_of request w)) ])
      /\ Http.headers_get (response_headers resp) "X-Request-ID" = None
      /\ logged w'
         = (logged w1
            ++ [ mkLog "error" "unhandled_exception"
                   [ ("request_id", Middleware.request_id_of request w);
                     ("error", exn_str exc);
                     ("error_type", Main.exn_type_name exc) ] ])%list.
Proof.
  intros route request w w1 exc Hnext Hstate Hlog.
  unfold Main.app, Main.log_requests, time, int_ms, elapsed_since, state_set, bind.
  cbn [entropy entropy_used clock_ms elapsed_ms clock_reads sleep_fault sleeps log_fault logged
       scope_state].
  unfold Middleware.world_at_call_next, Middleware.request_id_of in Hnext.
  rewrite Hnext.
  unfold Main.global_exception_handler, state_get, logger_error, logger, bind, ret.
  rewrite Hstate, Hlog.
  cbn [scope_state Middleware.world_at_call_next Py.dict_get String.eqb Ascii.eqb Bool.eqb].
  eexists. eexists. split; [reflexivity|].
  split; [reflexivity | split; reflexivity].
Qed.

Lemma X3_unhandled_exception_envelope_witness :
  exists (resp : Response) (w' : World),
    Main.app (Routes.route_process_document Config.default_settings)
      (Sample.post_document [ ("x-internal-secret", "internal-secret");
                              ("x-request-id", "abc-1") ])
      Sample.document_log_fails
    = (inr resp, w')
    /\ resp = JSONResponse 500
                (JObj [ ("error", JObj [ ("code", JStr "INTERNAL_ERROR");
                                         ("message", JStr "An unexpected error occurred") ]);
                        ("request_id", JStr "abc-1") ])
    /\ Http.headers_get (response_headers resp) "X-Request-ID" = None
    /\ logged w'
       = [ mkLog "error" "unhandled_exception"
             [ ("request_id", "abc-1");
               ("error", "log sink closed");
               ("error_type", "OSError") ] ].
Proof.
  apply (X3_unhandled_exception_envelope
           (Routes.route_process_document Config.default_settings)
           (Sample.post_document [ ("x-internal-secret", "internal-secret");
                                   ("x-request-id", "abc-1") ])
           Sample.document_log_fails
           (mkWorld (fun k => N.of_nat k) 1 (fun k => (1700 + Z.of_nat k)%Z) Sample.elapsed 1
                    (fun _ => None) 0
                    (fun name =>
                       if String.eqb name "document_process_request"
                       then Some (PyException "OSError" "log sink closed")
                       else None)
                    [] [ ("request_id", "abc-1") ])
           (PyException "OSError" "log sink closed"));
    reflexivity.
Defined.

(** The chat handler when something raises inside its [try] block, be it
    the awaited pause or the log call that reports completion. *)
Lemma chat_fails (request : Models.ChatRequest) (w : World) (e : exn) :
  log_fault w "chat_request_received" = None ->
  sleep_fault w (sleeps w) = Some e
  \/ (sleep_fault w (sleeps w) = None /\ log_fault w "chat_request_completed" = Some e) ->
  log_fault w "chat_request_failed" = None ->
  exists w',
    Routes.chat request
      [ ("client_id", Some "mock_client_123"); ("tier", Some "free");
        ("model", Some "gpt-4o-mini"); ("system_prompt", None) ] w
    = (inl (HTTPException 500 "Failed to process chat request"), w')
    /\ logged w'
       = (logged w
          ++ [ mkLog "info" "chat_request_received"
                 [ ("trace_id", Uuid.str (Uuid.uuid4_int (entropy w (entropy_used w))));
                   ("client_id", "mock_client_123");
                   ("message_length",
                    Py.str_int (Z.of_nat (String.length (Models.message request)))) ];
               mkLog "error" "chat_request_failed"
                 [ ("trace_id", Uuid.str (Uuid.uuid4_int (entropy w (entropy_used w))));
                   ("error", exn_str e) ] ])%list.
Proof.
  intros Hrecv Hfault Hfailed.
  unfold Routes.chat, try_except, Uuid.uuid4_str, urandom128, time, elapsed_since, Routes.getitem,
    sleep, logger_info, logger_error, logger, bind, ret.
  cbn [Py.dict_get String.eqb Ascii.eqb Bool.eqb Py.str_opt
       log_fault sleep_fault sleeps entropy entropy_used clock_ms elapsed_ms clock_reads logged
       scope_state].
  rewrite Hrecv.
  cbn [log_fault sleep_fault sleeps entropy entropy_used clock_ms elapsed_ms clock_reads logged
       scope_state].
  destruct Hfault as [Hs | [Hs Hc]]; rewrite Hs;
    cbn [log_fault sleep_fault sleeps entropy entropy_used clock_ms elapsed_ms clock_reads logged
         scope_state];
    try rewrite Hc;
    cbn [log_fault sleep_fault sleeps entropy entropy_used clock_ms elapsed_ms clock_reads logged
         scope_state];
    rewrite Hfailed; eexists; (split; [reflexivity|]);
    cbn [logged]; rewrite <- app_assoc; reflexivity.
Qed.

(** X4. A chat request with a good API key and a valid body, during which
    the awaited pause or the completion log call raises, is answered
    with status 500 and the fixed detail "Failed to process chat
    request", whatever the exception was: its text goes to one
    [chat_request_failed] log record, next to the trace identifier, and
    not to the client. *)
Theorem X4_chat_failure_is_generic :
  forall (req : Http.Request) (key : string) (request : Models.ChatRequest)
         (w : World) (e : exn),
    Http.headers_get (Http.headers req) "x-api-key" = Some key ->
    Py.startswith key "pk_" = true ->
    Models.validate_ChatRequest (Http.body req) = inr request ->
    log_fault w "chat_request_received" = None ->
    sleep_fault w (sleeps w) = Some e
    \/ (sleep_fault w (sleeps w) = None /\ log_fault w "chat_request_completed" = Some e) ->
    log_fault w "chat_request_failed" = None ->
    exists w',
      Routes.exception_middleware Routes.route_chat req w
      = (inr (JSONResponse 500 (JObj [ ("detail", JStr "Failed to process chat request") ])),
         w')
      /\ logged w'
         = (logged w
            ++ [ mkLog "info" "chat_request_received"
                   [ ("trace_id", Uuid.str (Uuid.uuid4_int (entropy w (entropy_used w))));
                     ("client_id", "mock_client_123");
                     ("message_length",
                      Py.str_int (Z.of_nat (String.length (Models.message request)))) ];
                 mkLog "error" "chat_request_failed"
                   [ ("trace_id", Uuid.str (Uuid.uuid4_int (entropy w (entropy_used w))));
                     ("error", exn_str e) ] ])%list.
Proof.
  intros req key request w e Hh Hk Hb Hrecv Hfault Hfailed.
  destruct (chat_fails request w e Hrecv Hfault Hfailed) as (w' & Hrun & Hlogged).
  exists w'. split; [|exact Hlogged].
  unfold Routes.exception_middleware, Routes.route_chat, bind.
  rewrite (RouteFacts.depends_api_key_accepts _ _ _ Hh Hk), Hb, Hrun. reflexivity.
Qed.

Lemma X4_chat_failure_is_generic_witness :
  exists w',
    Routes.exception_middleware Routes.route_chat
      (Sample.post_chat [ ("x-api-key", "pk_live_1") ]) MoreSamples.first_pause_fails
    = (inr (JSONResponse 500 (JObj [ ("detail", JStr "Failed to process chat request") ])),
       w')
    /\ logged w'
       = [ mkLog "info" "chat_request_received"
             [ ("trace_id", Sample.first_trace_id);
               ("client_id", "mock_client_123");
               ("message_length", "5") ];
           mkLog "error" "chat_request_failed"
             [ ("trace_id", Sample.first_trace_id); ("error", "boom") ] ].
Proof.
  apply (X4_chat_failure_is_generic
           (Sample.post_chat [ ("x-api-key", "pk_live_1") ]) "pk_live_1"
           Sample.chat_request MoreSamples.first_pause_fails
           (PyException "RuntimeError" "boom"));
    try reflexivity.
  left. reflexivity.
Defined.

(** X5. What the chat handler does with a configuration that lacks an
    entry, in an environment where nothing raises. Without [client_id]
    the lookup made for the first log call raises [KeyError] outside the
    [try] block: the exception leaves the handler as it is and nothing is
    logged. With [client_id] but without [tier] or [model] the lookup
    fails inside the [try] block and the handler raises the generic 500
    error. With all three entries the handler returns a response. *)
Theorem X5_chat_config_lookups :
  forall (request : Models.ChatRequest) (cfg : Routes.ClientConfig) (w : World),
    quiet w ->
    match Py.dict_get cfg "client_id" with
    | None =>
        fst (Routes.chat request cfg w) = inl (PyException "KeyError" "'client_id'")
        /\ logged (snd (Routes.chat request cfg w)) = logged w
    | Some _ =>
        match Py.dict_get cfg "tier", Py.dict_get cfg "model" with
        | Some _, Some _ =>
            exists r, fst (Routes.chat request cfg w) = inr r
                      /\ Models.cr_session_id r = Models.session_id request
        | _, _ =>
            fst (Routes.chat request cfg w)
            = inl (HTTPException 500 "Failed to process chat request")
        end
    end.
Proof.
  intros request cfg w [Hsleep Hlog].
  unfold Routes.chat, try_except, Uuid.uuid4_str, urandom128, time, elapsed_since, Routes.getitem,
    sleep, logger_info, logger_error, logger, bind, ret, raise.
  cbn [log_fault sleep_fault sleeps entropy entropy_used clock_ms elapsed_ms clock_reads logged
       scope_state].
  destruct (Py.dict_get cfg "client_id") as [client_id|].
  - cbn [log_fault sleep_fault sleeps entropy entropy_used clock_ms elapsed_ms clock_reads logged
         scope_state].
    rewrite Hlog.
    cbn [log_fault sleep_fault sleeps entropy entropy_used clock_ms elapsed_ms clock_reads logged
         scope_state].
    rewrite Hsleep.
    destruct (Py.dict_get cfg "tier") as [tier|]; [destruct (Py.dict_get cfg "model") as [model|]|];
      cbn [log_fault sleep_fault sleeps entropy entropy_used clock_ms elapsed_ms clock_reads logged
           scope_state]; rewrite Hlog; cbn [fst]; try reflexivity.
    eexists. split; reflexivity.
  - split; reflexivity.
Qed.

Lemma X5_chat_config_lookups_witness :
  quiet Sample.quiet_world
  /\ fst (Routes.chat Sample.chat_request MoreSamples.config_without_tier Sample.quiet_world)
     = inl (HTTPException 500 "Failed to process chat request").
Proof.
  split; [exact quiet_sample|].
  apply (X5_chat_config_lookups Sample.chat_request MoreSamples.config_without_tier
           Sample.quiet_world quiet_sample).
Defined.

(** ** The two key checks *)

(** X6. The internal validate-client handler and the external API-key
    check agree on every key: the handler says [valid] true exactly for
    the keys the check accepts, and then reports the [client_id], [tier]
    and [model] of the configuration the check returns; for every key
    the check rejects with 401 it says [valid] false. Neither touches the
    environment. *)
Theorem X6_key_checks_agree :
  forall (api_key : string) (ok : bool) (w : World),
    (exists cfg client_id tier model rest,
       Routes.validate_api_key api_key w = (inr cfg, w)
       /\ Py.dict_get cfg "client_id" = Some (Some client_id)
       /\ Py.dict_get cfg "tier" = Some (Some tier)
       /\ Py.dict_get cfg "model" = Some (Some model)
       /\ Routes.validate_client api_key ok w
          = (inr (JObj (("valid", JBool true) :: ("client_id", JStr client_id)
                        :: ("tier", JStr tier) :: ("model", JStr model) :: rest)), w))
    \/ (Routes.validate_api_key api_key w
          = (inl (HTTPException 401 "Invalid API key"), w)
        /\ Routes.validate_client api_key ok w
           = (inr (JObj [ ("valid", JBool false);
                          ("error_message", JStr "Invalid API key format") ]), w)).
Proof.
  intros api_key ok w.
  unfold Routes.validate_api_key, Routes.validate_client.
  destruct (Py.is_falsy api_key || negb (Py.startswith api_key "pk_")).
  - right. split; reflexivity.
  - left. do 5 eexists. repeat split.
Qed.

(** ** The shape of the event stream *)

Module ChunkFacts.





(** The chunks joined give the text back. *)
Lemma join_chunks (request : Models.ChatRequest) :
  Sse.join (Sse.chunks request) = Routes.mock_response request.
Proof.
  unfold Sse.chunks, Py.range.
  rewrite StrFacts.join_slices_from.
  - rewrite Nat.sub_0_r. apply StrFacts.substring_all.
  - unfold Routes.chunk_size. lia.
  - lia.
Qed.

End ChunkFacts.




Module TextFacts.

Lemma has_line_feed_append (a b : string) :
  Text.has_line_feed (a ++ b) = Text.has_line_feed a || Text.has_line_feed b.
Proof.
  induction a as [|c a IH]; simpl; [reflexivity | now rewrite IH, orb_assoc].
Qed.

Lemma has_line_feed_join (parts : list string) :
  Text.has_line_feed (Sse.join parts) = existsb Text.has_line_feed parts.
Proof.
  induction parts as [|p parts IH]; simpl; [reflexivity|].
  now rewrite has_line_feed_append, IH.
Qed.

Lemma all_chars_append (p : ascii -> bool) (a b : string) :
  Models.all_chars p (a ++ b) = Models.all_chars p a && Models.all_chars p b.
Proof.
  induction a as [|c a IH]; simpl; [reflexivity | now rewrite IH, andb_assoc].
Qed.

Lemma all_chars_substring (p : ascii -> bool) (s : string) (i m : nat) :
  Models.all_chars p s = true -> Models.all_chars p (substring i m s) = true.
Proof.
  revert i m; induction s as [|c s IH]; intros i m H.
  - destruct i, m; reflexivity.
  - simpl in H. apply andb_true_iff in H. destruct H as [Hc Hs].
    destruct i as [|i]; simpl.
    + destruct m as [|m]; simpl; [reflexivity|]. now rewrite Hc, (IH 0 m Hs).
    + now apply IH.
Qed.

(** A text of printable characters holds no line feed. *)
Lemma printable_no_line_feed (s : string) :
  Models.all_chars Text.printable s = true -> Text.has_line_feed s = false.
Proof.
  induction s as [|c s IH]; simpl; [reflexivity|].
  intro H. apply andb_true_iff in H. destruct H as [Hc Hs].
  rewrite (IH Hs), orb_false_r.
  destruct c as [[] [] [] [] [] [] [] []]; try reflexivity; discriminate Hc.
Qed.

(** Whatever the character, its escaped form is printable. *)
Lemma escape_char_printable (c : ascii) :
  Models.all_chars Text.printable (Json.escape_char c) = true.
Proof.
  destruct c as [[] [] [] [] [] [] [] []]; reflexivity.
Qed.

Lemma escape_printable (s : string) :
  Models.all_chars Text.printable (Json.escape s) = true.
Proof.
  induction s as [|c s IH]; simpl; [reflexivity|].
  now rewrite all_chars_append, escape_char_printable, IH.
Qed.

Lemma dumps_str_printable (s : string) :
  Models.all_chars Text.printable (Json.dumps_str s) = true.
Proof.
  unfold Json.dumps_str.
  now rewrite !all_chars_append, escape_printable.
Qed.

End TextFacts.


(** X10. Whatever the text of the exception, the payload of the [error]
    event consists of printable ASCII characters only and holds no line
    feed: quotes, backslashes, control characters and characters beyond
    ASCII in the message are escaped. The [error] event is thus always
    one [event:] line, one [data:] line and a blank line. *)
Theorem X10_error_payload_is_one_line :
  forall (e : exn),
    Models.all_chars Text.printable
      (Json.dumps_dict [ ("code", "STREAM_ERROR"); ("message", exn_str e) ]) = true
    /\ Text.has_line_feed
         (Json.dumps_dict [ ("code", "STREAM_ERROR"); ("message", exn_str e) ]) = false
    /\ Sse.error_frame e
       = ("event: error" ++ Py.LF ++ "data: "
          ++ Json.dumps_dict [ ("code", "STREAM_ERROR"); ("message", exn_str e) ]
          ++ Py.LF ++ Py.LF)%string.
Proof.
  intro e.
  assert (H : Models.all_chars Text.printable
                (Json.dumps_dict [ ("code", "STREAM_ERROR"); ("message", exn_str e) ])
              = true).
  { unfold Json.dumps_dict. cbn [Json.dumps_members].
    rewrite !TextFacts.all_chars_append, !TextFacts.dumps_str_printable. reflexivity. }
  split; [exact H | split; [now apply TextFacts.printable_no_line_feed | reflexivity]].
Qed.

(** The [try] block when the pause of turn [k] is the first call to
    raise. *)
Lemma stream_try_raises_mid (trace_id : string) (request : Models.ChatRequest)
    (w : World) (k : nat) (e : exn) :
  (forall j, j < k -> sleep_fault w (sleeps w + j) = None) ->
  sleep_fault w (sleeps w + k) = Some e ->
  k < length (Sse.chunks request) ->
  ended (Routes.stream_try trace_id request w) = inl e
  /\ yielded (Routes.stream_try trace_id request w)
     = (Sse.frame "start" trace_id
        :: map (Sse.frame "chunk") (firstn (S k) (Sse.chunks request)))%list
  /\ log_fault (after (Routes.stream_try trace_id request w)) = log_fault w.
Proof.
  intros Hbefore Hat Hk.
  unfold Sse.chunks in Hk. rewrite length_map in Hk.
  destruct (gfor_raises
              (Py.range 0 (String.length (Routes.mock_response request)) Routes.chunk_size)
              (fun i => ("event: chunk" ++ Py.LF ++ "data: "
                         ++ Py.slice (Routes.mock_response request) i (i + Routes.chunk_size)
                         ++ Py.LF ++ Py.LF)%string)
              w k e Hbefore Hat Hk) as (He & Hy & Hl).
  unfold Routes.stream_try.
  rewrite (GenFacts.gbind_step (gyield _) _ w tt eq_refl).
  cbn [ended after yielded gyield].
  rewrite (GenFacts.gbind_raise _ _ w e He).
  cbn [ended after yielded]. rewrite Hy, Hl.
  split; [reflexivity | split; [|reflexivity]].
  unfold Sse.chunks. rewrite firstn_map, map_map. reflexivity.
Qed.

(** X11. When an exception stops the chunk loop and the log call of the
    [except] clause raises in its turn, the generator ends by raising
    that second exception: the stream holds [start] and the chunks sent
    so far, and no terminal event at all, neither [done] nor [error]. *)
Theorem X11_no_terminal_when_error_log_raises :
  forall (trace_id : string) (request : Models.ChatRequest) (w : World) (k : nat)
         (e e2 : exn),
    (forall j, j < k -> sleep_fault w (sleeps w + j) = None) ->
    sleep_fault w (sleeps w + k) = Some e ->
    k < length (Sse.chunks request) ->
    log_fault w "chat_stream_error" = Some e2 ->
    ended (Routes.generate_stream trace_id request w) = inl e2
    /\ yielded (Routes.generate_stream trace_id request w)
       = (Sse.frame "start" trace_id
          :: map (Sse.frame "chunk") (firstn (S k) (Sse.chunks request)))%list
    /\ Sse.count_terminal (yielded (Routes.generate_stream trace_id request w)) = 0.
Proof.
  intros trace_id request w k e e2 Hbefore Hat Hk Herr.
  destruct (stream_try_raises_mid trace_id request w k e Hbefore Hat Hk)
    as (Hte & Hty & Htl).
  assert (Hrun : Routes.generate_stream trace_id request w
                 = mkRun (Sse.frame "start" trace_id
                          :: map (Sse.frame "chunk") (firstn (S k) (Sse.chunks request)))%list
                         (inl e2) (after (Routes.stream_try trace_id request w))).
  { unfold Routes.generate_stream. rewrite (GenFacts.gtry_raise _ _ _ _ Hte).
    unfold Routes.stream_except, logger_error.
    rewrite (GenFacts.gbind_raise _ _ _ e2)
      by (rewrite (GenFacts.glift_logger_raises _ _ _ _ e2)
            by (rewrite Htl; exact Herr); reflexivity).
    rewrite (GenFacts.glift_logger_raises _ _ _ _ e2) by (rewrite Htl; exact Herr).
    cbn [yielded ended after]. rewrite Hty, app_nil_r. reflexivity. }
  rewrite Hrun. cbn [ended yielded].
  split; [reflexivity | split; [reflexivity|]].
  unfold Sse.count_terminal. cbn [filter].
  assert (H : Sse.is_terminal (Sse.frame "start" trace_id) = false) by reflexivity.
  rewrite H, chunk_frames_not_terminal. reflexivity.
Qed.

Lemma X11_no_terminal_when_error_log_raises_witness :
  ended (Routes.generate_stream "t-1" Sample.chat_request
           MoreSamples.pause_and_error_log_fail)
    = inl (PyException "OSError" "log sink closed")
  /\ yielded (Routes.generate_stream "t-1" Sample.chat_request
                MoreSamples.pause_and_error_log_fail)
     = [ Sse.frame "start" "t-1";
         Sse.frame "chunk" "This is a ";
         Sse.frame "chunk" "mock strea" ]
  /\ Sse.count_terminal
       (yielded (Routes.generate_stream "t-1" Sample.chat_request
                   MoreSamples.pause_and_error_log_fail)) = 0.
Proof.
  assert (Hb : forall j, j < 1 ->
               sleep_fault MoreSamples.pause_and_error_log_fail
                 (sleeps MoreSamples.pause_and_error_log_fail + j) = None).
  { intros j Hj. destruct j as [|j]; [reflexivity | lia]. }
  assert (Hk : 1 < length (Sse.chunks Sample.chat_request)) by (vm_compute; lia).
  destruct (X11_no_terminal_when_error_log_raises "t-1" Sample.chat_request
              MoreSamples.pause_and_error_log_fail 1
              (PyException "RuntimeError" "boom") (PyException "OSError" "log sink closed")
              Hb eq_refl Hk eq_refl) as (He & Hy & Hc).
  split; [exact He | split; [|exact Hc]].
  rewrite Hy. reflexivity.
Defined.

(** ** The request identifier header *)

Module HeaderFacts2.

Lemma dict_get_drop_name_other (hs : Http.Headers) (name other : string) :
  other <> name ->
  Py.dict_get (Http.drop_name name hs) other = Py.dict_get hs other.
Proof.
  intro Hne. unfold Http.drop_name.
  induction hs as [|[n v] hs IH]; simpl; [reflexivity|].
  destruct (String.eqb_spec n name) as [->|Hn]; simpl.
  - destruct (String.eqb_spec name other) as [Heq|_]; [congruence | exact IH].
  - destruct (String.eqb n other); [reflexivity | exact IH].
Qed.

(** Setting one header leaves the lookups of all other names alone. *)
Lemma dict_get_headers_put_other (hs : Http.Headers) (name value other : string) :
  other <> name ->
  Py.dict_get (Http.headers_put hs name value) other = Py.dict_get hs other.
Proof.
  intro Hne. induction hs as [|[n v] hs IH]; simpl.
  - destruct (String.eqb_spec name other) as [Heq|_]; [congruence | reflexivity].
  - destruct (String.eqb_spec n name) as [->|Hn]; simpl.
    + destruct (String.eqb_spec name other) as [Heq|_]; [congruence|].
      now apply dict_get_drop_name_other.
    + destruct (String.eqb n other); [reflexivity | exact IH].
Qed.

End HeaderFacts2.

(** X12. When the rest of the application answers and the request log
    call does not raise, the response that [log_requests] returns bears
    exactly one [X-Request-ID] header, the identifier of the request,
    even if the inner response already carried headers of that name;
    every header of another name reads as in the inner response; and
    exactly one [http_request] record is added to the log, with the
    identifier, the method, the path, the status of the inner response
    and the number of milliseconds the environment gives for the reading
    taken on entry and the one taken after the answer. *)
Theorem X12_request_id_header_is_unique :
  forall (request : Http.Request) (call_next : Http.Request -> M Response)
         (w w1 : World) (resp0 : Response) (name : string),
    call_next request (Middleware.world_at_call_next request w) = (inr resp0, w1) ->
    log_fault w1 "http_request" = None ->
    Py.lower name <> "x-request-id" ->
    exists (resp : Response) (w' : World),
      Main.log_requests request call_next w = (inr resp, w')
      /\ filter (fun h => String.eqb (fst h) "x-request-id") (response_headers resp)
         = [ ("x-request-id", Middleware.request_id_of request w) ]
      /\ Http.headers_get (response_headers resp) name
         = Http.headers_get (response_headers resp0) name
      /\ logged w'
         = (logged w1
            ++ [ mkLog "info" "http_request"
                   [ ("request_id", Middleware.request_id_of request w);
                     ("method", Http.method request);
                     ("path", Http.path request);
                     ("status_code", Py.str_int (Z.of_nat (status_code resp0)));
                     ("duration_ms",
                      Py.str_int (elapsed_ms w1 (clock_reads w) (clock_reads w1))) ] ])%list.
Proof.
  intros request call_next w w1 resp0 name Hnext Hlog Hname.
  unfold Main.log_requests, time, int_ms, elapsed_since, state_set, logger_info, logger,
    bind, ret.
  cbn [entropy entropy_used clock_ms elapsed_ms clock_reads sleep_fault sleeps log_fault logged
       scope_state].
  unfold Middleware.world_at_call_next, Middleware.request_id_of in Hnext.
  rewrite Hnext.
  cbn [entropy entropy_used clock_ms elapsed_ms clock_reads sleep_fault sleeps log_fault logged
       scope_state].
  rewrite Hlog.
  eexists. eexists. split; [reflexivity|].
  cbn [response_headers with_header logged].
  split; [apply HeaderFacts.headers_put_once | split; [|reflexivity]].
  unfold Http.headers_get, Http.headers_set.
  apply HeaderFacts2.dict_get_headers_put_other. exact Hname.
Qed.

Lemma X12_request_id_header_is_unique_witness :
  exists (resp : Response) (w' : World),
    Main.log_requests (Sample.post_chat [ ("x-request-id", "abc-1") ])
      (fun _ => ret MoreSamples.response_with_ids) Sample.quiet_world
    = (inr resp, w')
    /\ filter (fun h => String.eqb (fst h) "x-request-id") (response_headers resp)
       = [ ("x-request-id", "abc-1") ]
    /\ Http.headers_get (response_headers resp) "Content-Length" = Some "2"
    /\ logged w'
       = [ mkLog "info" "http_request"
             [ ("request_id", "abc-1"); ("method", "POST");
               ("path", "/api/widget/chat"); ("status_code", "200");
               ("duration_ms", "0") ] ].
Proof.
  apply (X12_request_id_header_is_unique (Sample.post_chat [ ("x-request-id", "abc-1") ])
           (fun _ => ret MoreSamples.response_with_ids) Sample.quiet_world
           (Middleware.world_at_call_next (Sample.post_chat [ ("x-request-id", "abc-1") ])
              Sample.quiet_world)
           MoreSamples.response_with_ids "Content-Length");
    [reflexivity | reflexivity | discriminate].
Defined.

(** ** Trace identifiers *)

Module UuidFacts.

Lemma hex_digit_in_class (n : N) :
  Models.session_char (Json.hex_digit (N.land n 15)) = true.
Proof.
  assert (H : (N.land n 15 < 16)%N).
  { change 15%N with (N.ones 4). rewrite N.land_ones. now apply N.mod_lt. }
  destruct (N.land n 15) as [|p]; [reflexivity|].
  destruct p as [[[[p|p|]|[p|p|]|]|[[p|p|]|[p|p|]|]|]|[[[p|p|]|[p|p|]|]|[[p|p|]|[p|p|]|]|]|];
    try reflexivity; exfalso; lia.
Qed.

Lemma hex_fixed_in_class (k : nat) (n : N) :
  Models.all_chars Models.session_char (Json.hex_fixed k n) = true.
Proof.
  revert n; induction k as [|k IH]; intro n; simpl; [reflexivity|].
  rewrite TextFacts.all_chars_append, IH. simpl.
  now rewrite hex_digit_in_class.
Qed.

(** The text of an identifier: five groups of hexadecimal digits with a
    hyphen after the 8th, 12th, 16th and 20th digit. *)
Lemma str_shape (i : N) :
  Models.session_id_pattern (Uuid.str i) = true
  /\ String.get 8 (Uuid.str i) = Some "-"%char
  /\ String.get 13 (Uuid.str i) = Some "-"%char
  /\ String.get 18 (Uuid.str i) = Some "-"%char
  /\ String.get 23 (Uuid.str i) = Some "-"%char.
Proof.
  pose proof (hex_fixed_length 32 i) as Hlen.
  pose proof (hex_fixed_in_class 32 i) as Hcls.
  split.
  - unfold Models.session_id_pattern. rewrite uuid_str_length.
    unfold Uuid.str, Py.slice.
    rewrite !TextFacts.all_chars_append.
    rewrite !(TextFacts.all_chars_substring _ _ _ _ Hcls). reflexivity.
  - repeat split; reflexivity.
Qed.

End UuidFacts.

(** X13. Every trace identifier the handlers build, in any environment,
    is a text of 36 characters that are lowercase hexadecimal digits or
    hyphens, with the hyphens at positions 8, 13, 18 and 23: it has the
    very form the [session_id] of a request must have. Building it
    never fails and consumes one value of the random source. *)
Theorem X13_trace_id_shape :
  forall (w : World),
    exists (t : string) (w' : World),
      Uuid.uuid4_str w = (inr t, w')
      /\ entropy_used w' = S (entropy_used w)
      /\ String.length t = 36
      /\ Models.session_id_pattern t = true
      /\ String.get 8 t = Some "-"%char
      /\ String.get 13 t = Some "-"%char
      /\ String.get 18 t = Some "-"%char
      /\ String.get 23 t = Some "-"%char.
Proof.
  intro w. unfold Uuid.uuid4_str, urandom128, bind, ret.
  eexists. eexists. split; [reflexivity|].
  split; [reflexivity|]. split; [apply uuid_str_length|].
  apply UuidFacts.str_shape.
Qed.

(** ** What a stream does to its environment *)

(** X14. When the pause of turn [k] of the chunk loop is the first call
    to raise and the log call of the [except] clause does not raise, the
    stream is [start], the first [k + 1] chunk events and one [error]
    event whose payload holds the code [STREAM_ERROR] and the text of
    the exception: the [error] event is the last event and the only
    terminal one, and neither [sources] nor [done] is sent. *)
Theorem X14_error_event_ends_the_stream :
  forall (trace_id : string) (request : Models.ChatRequest) (w : World) (k : nat)
         (e : exn),
    (forall j, j < k -> sleep_fault w (sleeps w + j) = None) ->
    sleep_fault w (sleeps w + k) = Some e ->
    k < length (Sse.chunks request) ->
    log_fault w "chat_stream_error" = None ->
    yielded (Routes.generate_stream trace_id request w)
    = (Sse.frame "start" trace_id
       :: map (Sse.frame "chunk") (firstn (S k) (Sse.chunks request))
       ++ [ Sse.frame "error"
              (Json.dumps_dict [ ("code", "STREAM_ERROR"); ("message", exn_str e) ]) ])%list
    /\ Sse.count_terminal (yielded (Routes.generate_stream trace_id request w)) = 1.
Proof.
  intros trace_id request w k e Hbefore Hat Hk Herr.
  exact (error_replaces_done trace_id request w k e Hbefore Hat Hk Herr).
Qed.

Lemma X14_error_event_ends_the_stream_witness :
  yielded (Routes.generate_stream "t-1" Sample.chat_request Sample.second_pause_fails)
  = [ Sse.frame "start" "t-1";
      Sse.frame "chunk" "This is a ";
      Sse.frame "chunk" "mock strea";
      Sse.frame "error"
        (Json.dumps_dict [ ("code", "STREAM_ERROR"); ("message", "boom") ]) ]
  /\ Sse.count_terminal
       (yielded (Routes.generate_stream "t-1" Sample.chat_request Sample.second_pause_fails))
     = 1.
Proof.
  assert (Hb : forall j, j < 1 ->
               sleep_fault Sample.second_pause_fails
                 (sleeps Sample.second_pause_fails + j) = None).
  { intros j Hj. destruct j as [|j]; [reflexivity | lia]. }
  assert (Hk : 1 < length (Sse.chunks Sample.chat_request)) by (vm_compute; lia).
  destruct (X14_error_event_ends_the_stream "t-1" Sample.chat_request
              Sample.second_pause_fails 1
              (PyException "RuntimeError" "boom") Hb eq_refl Hk eq_refl) as (Hy & Hc).
  split; [|exact Hc].
  rewrite Hy. reflexivity.
Defined.

(** The chunk loop in an environment whose pauses never raise changes
    nothing but the count of pauses, which grows by one per turn. *)
Lemma gfor_quiet_effects {A} (xs : list A) (frame : A -> string) (w : World) :
  (forall k, sleep_fault w k = None) ->
  after (Routes.gfor xs (fun x => gbind (gyield (frame x)) (fun _ => glift sleep)) w)
  = mkWorld (entropy w) (entropy_used w) (clock_ms w) (elapsed_ms w) (clock_reads w)
            (sleep_fault w) (sleeps w + length xs) (log_fault w) (logged w)
            (scope_state w).
Proof.
  revert w; induction xs as [|x xs IH]; intros w Hq.
  - destruct w. cbn. now rewrite Nat.add_0_r.
  - assert (Hstep : gbind (gyield (frame x)) (fun _ => glift sleep) w
                    = mkRun [frame x] (inr tt)
                        (mkWorld (entropy w) (entropy_used w) (clock_ms w) (elapsed_ms w) (clock_reads w)
                                 (sleep_fault w) (S (sleeps w)) (log_fault w) (logged w)
                                 (scope_state w))).
    { unfold gbind, gyield, glift, sleep. cbn [ended after yielded].
      rewrite (Hq (sleeps w)). reflexivity. }
    cbn [Routes.gfor].
    rewrite (GenFacts.gbind_step _ _ w tt) by (rewrite Hstep; reflexivity).
    rewrite Hstep. cbn [ended after yielded].
    rewrite (IH (mkWorld (entropy w) (entropy_used w) (clock_ms w) (elapsed_ms w) (clock_reads w)
                         (sleep_fault w) (S (sleeps w)) (log_fault w) (logged w)
                         (scope_state w)) Hq).
    cbn [entropy entropy_used clock_ms elapsed_ms clock_reads sleep_fault sleeps
         log_fault logged scope_state length].
    f_equal. lia.
Qed.

(** X15. In an environment where no pause raises and the completion log
    call does not raise, the stream runs to its end: it yields the
    successful sequence, pauses once per chunk event, and writes exactly
    one log record, [chat_stream_completed] with the trace identifier.
    It reads no clock, draws no random value and leaves the request
    state alone. *)
Theorem X15_stream_effects :
  forall (trace_id : string) (request : Models.ChatRequest) (w : World),
    (forall k, sleep_fault w k = None) ->
    log_fault w "chat_stream_completed" = None ->
    Routes.generate_stream trace_id request w
    = mkRun (Sse.success_frames trace_id request) (inr tt)
        (mkWorld (entropy w) (entropy_used w) (clock_ms w) (elapsed_ms w) (clock_reads w)
                 (sleep_fault w) (sleeps w + length (Sse.chunks request)) (log_fault w)
                 (logged w
                  ++ [ mkLog "info" "chat_stream_completed" [ ("trace_id", trace_id) ] ])%list
                 (scope_state w)).
Proof.
  intros trace_id request w Hq Hlog.
  destruct (gfor_quiet
              (Py.range 0 (String.length (Routes.mock_response request)) Routes.chunk_size)
              (fun i => ("event: chunk" ++ Py.LF ++ "data: "
                         ++ Py.slice (Routes.mock_response request) i (i + Routes.chunk_size)
                         ++ Py.LF ++ Py.LF)%string)
              w Hq) as (He & Hy & _).
  pose proof (gfor_quiet_effects
                (Py.range 0 (String.length (Routes.mock_response request)) Routes.chunk_size)
                (fun i => ("event: chunk" ++ Py.LF ++ "data: "
                           ++ Py.slice (Routes.mock_response request) i
                                (i + Routes.chunk_size)
                           ++ Py.LF ++ Py.LF)%string)
                w Hq) as Ha.
  assert (Htry : Routes.stream_try trace_id request w
                 = mkRun (Sse.success_frames trace_id request) (inr tt)
                     (mkWorld (entropy w) (entropy_used w) (clock_ms w) (elapsed_ms w) (clock_reads w)
                        (sleep_fault w) (sleeps w + length (Sse.chunks request))
                        (log_fault w)
                        (logged w
                         ++ [ mkLog "info" "chat_stream_completed"
                                [ ("trace_id", trace_id) ] ])%list
                        (scope_state w))).
  { unfold Routes.stream_try.
    rewrite (GenFacts.gbind_step (gyield _) _ w tt eq_refl).
    cbn [ended after yielded gyield].
    rewrite (GenFacts.gbind_step _ _ w tt He).
    cbn [ended after yielded].
    rewrite (GenFacts.gbind_step (gyield _) _ _ tt eq_refl).
    cbn [ended after yielded gyield].
    rewrite (GenFacts.gbind_step (gyield _) _ _ tt eq_refl).
    cbn [ended after yielded gyield].
    rewrite Hy, Ha.
    unfold glift, logger_info, logger.
    cbn [entropy entropy_used clock_ms elapsed_ms clock_reads sleep_fault sleeps log_fault logged
         scope_state].
    rewrite Hlog.
    unfold Sse.success_frames, Sse.chunks. rewrite !length_map, map_map.
    reflexivity. }
  unfold Routes.generate_stream.
  rewrite (GenFacts.gtry_ok _ _ w tt) by (rewrite Htry; reflexivity).
  exact Htry.
Qed.

Lemma X15_stream_effects_witness :
  yielded (Routes.generate_stream "t-1" Sample.chat_request Sample.quiet_world)
    = Sse.success_frames "t-1" Sample.chat_request
  /\ ended (Routes.generate_stream "t-1" Sample.chat_request Sample.quiet_world) = inr tt
  /\ sleeps (after (Routes.generate_stream "t-1" Sample.chat_request Sample.quiet_world))
     = 14
  /\ logged (after (Routes.generate_stream "t-1" Sample.chat_request Sample.quiet_world))
     = [ mkLog "info" "chat_stream_completed" [ ("trace_id", "t-1") ] ].
Proof.
  rewrite (X15_stream_effects "t-1" Sample.chat_request Sample.quiet_world
             (fun _ => eq_refl) eq_refl).
  repeat split.
Defined.

(** ** What the chat handler does to its environment *)

(** X16. A chat request with a good API key and a valid body, served
    while nothing raises, pauses once, reads the clock twice and writes
    exactly two log records: [chat_request_received] with the trace
    identifier, the client identifier of the configuration and the length
    of the message, then [chat_request_completed] with the trace
    identifier and the number of milliseconds the environment gives for
    the two readings. The records hold the length of the message, not
    its text. *)
Theorem X16_chat_effects :
  forall (req : Http.Request) (key : string) (request : Models.ChatRequest) (w : World),
    Http.headers_get (Http.headers req) "x-api-key" = Some key ->
    Py.startswith key "pk_" = true ->
    Models.validate_ChatRequest (Http.body req) = inr request ->
    quiet w ->
    exists (resp : Response) (w' : World),
      Routes.exception_middleware Routes.route_chat req w = (inr resp, w')
      /\ status_code resp = 200
      /\ logged w'
         = (logged w
            ++ [ mkLog "info" "chat_request_received"
                   [ ("trace_id", Uuid.str (Uuid.uuid4_int (entropy w (entropy_used w))));
                     ("client_id", "mock_client_123");
                     ("message_length",
                      Py.str_int (Z.of_nat (String.length (Models.message request)))) ];
                 mkLog "info" "chat_request_completed"
                   [ ("trace_id", Uuid.str (Uuid.uuid4_int (entropy w (entropy_used w))));
                     ("latency_ms",
                      Py.str_int (elapsed_ms w (clock_reads w) (S (clock_reads w)))) ] ])%list
      /\ sleeps w' = S (sleeps w)
      /\ clock_reads w' = S (S (clock_reads w))
      /\ scope_state w' = scope_state w.
Proof.
  intros req key request w Hh Hk Hb [Hsleep Hlog].
  unfold Routes.exception_middleware, Routes.route_chat, bind at 1.
  rewrite (RouteFacts.depends_api_key_accepts _ _ _ Hh Hk), Hb.
  unfold Routes.chat, try_except, Uuid.uuid4_str, urandom128, time, elapsed_since, Routes.getitem,
    sleep, logger_info, logger, bind, ret.
  cbn [Py.dict_get String.eqb Ascii.eqb Bool.eqb Py.str_opt
       log_fault sleep_fault sleeps entropy entropy_used clock_ms elapsed_ms clock_reads logged
       scope_state].
  repeat (first [rewrite Hlog | rewrite Hsleep];
          cbn [log_fault sleep_fault sleeps entropy entropy_used clock_ms elapsed_ms clock_reads
               logged scope_state]).
  eexists. eexists. split; [reflexivity|]. split; [reflexivity|].
  cbn [logged sleeps clock_reads scope_state].
  rewrite <- app_assoc. repeat split.
Qed.

Lemma X16_chat_effects_witness :
  exists (resp : Response) (w' : World),
    Routes.exception_middleware Routes.route_chat
      (Sample.post_chat [ ("x-api-key", "pk_live_1") ]) Sample.quiet_world
    = (inr resp, w')
    /\ status_code resp = 200
    /\ logged w'
       = [ mkLog "info" "chat_request_received"
             [ ("trace_id", Sample.first_trace_id);
               ("client_id", "mock_client_123");
               ("message_length", "5") ];
           mkLog "info" "chat_request_completed"
             [ ("trace_id", Sample.first_trace_id); ("latency_ms", "0") ] ]
    /\ sleeps w' = 1
    /\ clock_reads w' = 2
    /\ scope_state w' = [].
Proof.
  apply (X16_chat_effects (Sample.post_chat [ ("x-api-key", "pk_live_1") ]) "pk_live_1"
           Sample.chat_request Sample.quiet_world);
    [reflexivity | reflexivity | reflexivity | exact quiet_sample].
Defined.

(** ** The chunk events as a client reads them *)

Module ReaderFacts.

Lemma first_line_before_feed (c rest : string) :
  SseReader.first_line (c ++ Py.LF ++ rest) = SseReader.first_line c.
Proof.
  induction c as [|x c IH]; [reflexivity|].
  cbn [append SseReader.first_line].
  destruct (Text.is_line_feed x); [reflexivity | now rewrite IH].
Qed.

Lemma prefix_append (p rest : string) : prefix p (p ++ rest) = true.
Proof.
  induction p as [|a p IH]; simpl; [destruct rest; reflexivity|].
  destruct (ascii_dec a a) as [_|Hne]; [exact IH | now contradiction Hne].
Qed.

Lemma substring_behind_prefix (p rest : string) :
  substring (String.length p) (String.length (p ++ rest) - String.length p) (p ++ rest)
  = rest.
Proof.
  induction p as [|a p IH]; simpl.
  - rewrite Nat.sub_0_r. apply StrFacts.substring_all.
  - exact IH.
Qed.

(** A [chunk] event carries the first line of what the generator wrote
    behind [data: ], and nothing of what follows a line feed in it. *)
Lemma carried_payload_of_chunk (c : string) :
  SseReader.carried_payload (Sse.frame "chunk" c) = SseReader.first_line c.
Proof.
  unfold SseReader.carried_payload, Sse.frame.
  change (SseReader.after_first_line
            ("event: " ++ "chunk" ++ Py.LF ++ "data: " ++ c ++ Py.LF ++ Py.LF))
    with ("data: " ++ c ++ Py.LF ++ Py.LF)%string.
  change (SseReader.first_line ("data: " ++ c ++ Py.LF ++ Py.LF))
    with ("data: " ++ SseReader.first_line (c ++ Py.LF ++ Py.LF))%string.
  rewrite first_line_before_feed, prefix_append.
  exact (substring_behind_prefix "data: " (SseReader.first_line c)).
Qed.

Lemma first_line_length (c : string) :
  String.length (SseReader.first_line c) <= String.length c
  /\ (Text.has_line_feed c = true ->
      String.length (SseReader.first_line c) < String.length c).
Proof.
  induction c as [|x c [IH1 IH2]]; simpl.
  - split; [lia | discriminate].
  - destruct (Text.is_line_feed x); simpl; split; try lia.
    intro H. apply IH2 in H. lia.
Qed.

Lemma first_lines_fall_short (parts : list string) :
  String.length (Sse.join (map SseReader.first_line parts))
    <= String.length (Sse.join parts)
  /\ (existsb Text.has_line_feed parts = true ->
      String.length (Sse.join (map SseReader.first_line parts))
        < String.length (Sse.join parts)).
Proof.
  induction parts as [|p parts [IH1 IH2]]; simpl.
  - split; [lia | discriminate].
  - rewrite !StrFacts.length_append.
    destruct (first_line_length p) as [H1 H2].
    split; [lia|].
    intro H. apply orb_true_iff in H. destruct H as [H|H].
    + apply H2 in H. lia.
    + apply IH2 in H. lia.
Qed.

Lemma mock_response_has_line_feed (request : Models.ChatRequest) :
  Text.has_line_feed (Routes.mock_response request) = true.
Proof.
  unfold Routes.mock_response.
  rewrite !TextFacts.has_line_feed_append.
  change (Text.has_line_feed Py.LF) with true.
  now rewrite !orb_true_r.
Qed.

(** For every request, the payloads the [chunk] events carry are, taken
    together, shorter than the generated text. *)
Lemma carried_payloads_fall_short (request : Models.ChatRequest) :
  String.length
    (Sse.join (map SseReader.carried_payload
                 (map (Sse.frame "chunk") (Sse.chunks request))))
  < String.length (Routes.mock_response request).
Proof.
  rewrite map_map.
  rewrite (map_ext _ SseReader.first_line carried_payload_of_chunk).
  rewrite <- (ChunkFacts.join_chunks request).
  apply first_lines_fall_short.
  rewrite <- TextFacts.has_line_feed_join, ChunkFacts.join_chunks.
  apply mock_response_has_line_feed.
Qed.

End ReaderFacts.

(** C3, where the code departs from it. The generator writes each slice of
    the text behind [data: ] as it is, and the text always holds a blank
    line. For the request below, served while nothing raises, the eighth
    event of the stream is the [chunk] event written for the slice
    [..'], two line feeds, [The a]: its [data:] line carries [..'] only,
    and the rest stands behind the blank line, outside any event. The
    payloads the [chunk] events carry, joined in the order of the stream,
    are the text without these seven characters, not the text. *)
Theorem C3_chunk_payloads_lose_text :
  ended (Routes.generate_stream "t-1" Sample.chat_request Sample.quiet_world) = inr tt
  /\ nth 7 (yielded (Routes.generate_stream "t-1" Sample.chat_request Sample.quiet_world))
         EmptyString
     = ("event: chunk" ++ Py.LF ++ "data: ..'" ++ Py.LF ++ Py.LF ++ "The a"
        ++ Py.LF ++ Py.LF)%string
  /\ SseReader.carried_payload
       (nth 7 (yielded (Routes.generate_stream "t-1" Sample.chat_request
                          Sample.quiet_world)) EmptyString)
     = "..'"
  /\ SseReader.carried_chunk_text
       (yielded (Routes.generate_stream "t-1" Sample.chat_request Sample.quiet_world))
     = ("This is a mock streaming response. Your message was: 'hello...'"
        ++ "ctual implementation will stream tokens from the LLM in real-time.")%string
  /\ SseReader.carried_chunk_text
       (yielded (Routes.generate_stream "t-1" Sample.chat_request Sample.quiet_world))
     <> Routes.mock_response Sample.chat_request.
Proof.
  assert (Hrun : yielded (Routes.generate_stream "t-1" Sample.chat_request
                            Sample.quiet_world)
                 = Sse.success_frames "t-1" Sample.chat_request
                 /\ ended (Routes.generate_stream "t-1" Sample.chat_request
                             Sample.quiet_world) = inr tt).
  { split; vm_compute; reflexivity. }
  destruct Hrun as [Hy He]. rewrite Hy.
  split; [exact He|].
  split; [vm_compute; reflexivity|].
  split; [vm_compute; reflexivity|].
  split; [vm_compute; reflexivity|].
  intro H. apply (f_equal String.length) in H.
  vm_compute in H. discriminate H.
Qed.

(** Of several [api_key] parameters the handler is given the last. *)
Example last_api_key_counts :
  Routes.exception_middleware (Routes.route_validate_client Config.default_settings)
    (Sample.post_validate_client [ ("x-internal-secret", "internal-secret") ]
       [ ("api_key", "sk_1"); ("api_key", "pk_2") ]) Sample.quiet_world
  = (inr (JSONResponse 200
            (JObj [ ("valid", JBool true);
                    ("client_id", JStr "mock_client_123");
                    ("tier", JStr "free");
                    ("model", JStr "gpt-4o-mini");
                    ("allowed_domains", JArr [ JStr "*" ]) ])), Sample.quiet_world).
Proof.
  reflexivity.
Qed.
